(** * Verification of the arbutus footprint and points pipelines

    Shallow embedding of [arbutus/project2Dpictures_arbutus.py] (footprint
    script) and [arbutus/arbutuspictures2points.py] (points script).

    Modelling conventions:
    - Python [float] values are modelled by exact rationals [Q]; a float
      division whose divisor is zero raises [ZeroDivisionError] in Python and
      is modelled as an explicit failure, never by [Q]'s [x / 0 = 0].
    - Python [int] values are [Z]; [//] is [Z.div] (both round toward minus
      infinity), with the zero divisor again an explicit failure.
    - [datetime] values are only compared, so they are modelled as day
      numbers in [Z].
    - A logger is modelled by the list of levels of the records it emits.
    - Network, EXIF parsing, raster sampling and CRS transforms are inputs
      (their results), or Section variables. *)

From Stdlib Require Import ZArith QArith Qfield Lqa List String Ascii Bool Lia.
Import ListNotations.

(** Levels of the records sent to a [logging] logger. *)
Inductive level := Info | Warning | Error.

Definition level_eqb (a b : level) : bool :=
  match a, b with
  | Info, Info | Warning, Warning | Error, Error => true
  | _, _ => false
  end.

(** The number of records of a level. *)
Definition count_level (l : level) (log : list level) : nat :=
  List.length (filter (level_eqb l) log).

(** No record of level Warning or above. *)
Definition quiet (log : list level) : Prop :=
  forall l, In l log -> l = Info.

(** ** DSM catalog and date matching *)
Module Dsm.

(** [(file_path, date)] as returned by [find_dsm_files]. *)
Definition dsm_file := (string * Z)%type.

(** [max(valid_dsms, key=lambda x: x[1])]: Python's [max] replaces its
    current best only on a strictly greater key, so the first maximal
    element wins. *)
Fixpoint max_by_date (best : dsm_file) (l : list dsm_file) : dsm_file :=
  match l with
  | [] => best
  | x :: t => max_by_date (if (snd best <? snd x)%Z then x else best) t
  end.

(** [select_closest_dsm(mission_date, dsm_files)]. *)
Definition select_closest_dsm (mission_date : Z) (dsm_files : list dsm_file)
  : option string * list level :=
  match dsm_files with
  | [] => (None, [Error])
  | _ =>
    let valid_dsms := filter (fun p => (snd p <=? mission_date)%Z) dsm_files in
    match valid_dsms with
    | [] => (None, [Error])
    | v :: vs => (Some (fst (max_by_date v vs)), [Info])
    end
  end.

End Dsm.

(** ** Footprint geometry: [process_image_from_url] *)
Module Geometry.
Open Scope Q_scope.

Definition point := (Q * Q)%type.

(** A footprint feature: its polygon and the properties the claims use. *)
Record feature := {
  f_mission_id : string;
  f_image_name : string;
  f_tile_row : option Z;
  f_tile_col : option Z;
  f_latitude : Q;
  f_longitude : Q;
  f_altitude_m : Q;
  f_dsm_median_m : Q;
  f_flight_height_m : Q;
  f_gsd_m : Q;
  f_footprint_width_m : Q;
  f_footprint_height_m : Q;
  f_footprint_area_m2 : Q;
  f_image_width_px : Z;
  f_image_height_px : Z;
  f_tile_width_px : option Z;
  f_tile_height_px : option Z;
  f_geometry : list point
}.

(** Outcome of one worker call: [None], a list of features, or an
    exception ([ZeroDivisionError]) escaping the worker. *)
Inductive result := Skip | Emit (fs : list feature) | Crash.

(** Python's [range(n)] over [int]: empty when [n <= 0]. *)
Definition zrange (n : Z) : list Z := map Z.of_nat (seq 0 (Z.to_nat n)).

(** The ring of a north-oriented rectangle, counter-clockwise from SW. *)
Definition rect (minx miny maxx maxy : Q) : list point :=
  [(minx, miny); (maxx, miny); (maxx, maxy); (minx, maxy); (minx, miny)].

(** [gsd = (sensor_width_mm * flight_height) / (focal_length_mm * img_width)];
    [None] when the float divisor is zero ([ZeroDivisionError]). *)
Definition compute_gsd (sensor_width_mm flight_height focal_length_mm : Q)
    (img_width : Z) : option Q :=
  let d := focal_length_mm * inject_Z img_width in
  if Qeq_bool d 0 then None else Some ((sensor_width_mm * flight_height) / d).

Section Process.

(** [Transformer.from_crs("EPSG:4326", output_crs, always_xy=True).transform]
    applied to [(lon, lat)]. *)
Variable transform : Q -> Q -> point.

(** [create_footprint_polygon(center_lon, center_lat, width_m, height_m, crs)] *)
Definition create_footprint_polygon (center_lon center_lat width_m height_m : Q)
  : list point :=
  let '(x_proj, y_proj) := transform center_lon center_lat in
  let half_width := width_m / 2 in
  let half_height := height_m / 2 in
  rect (x_proj - half_width) (y_proj - half_height)
       (x_proj + half_width) (y_proj + half_height).

(** Values shared by all features of one image. *)
Record image_ctx := {
  c_mission_id : string; c_zoom_name : string;
  c_lat : Q; c_lon : Q; c_altitude : Q; c_dsm_median : Q;
  c_flight_height : Q; c_gsd : Q; c_img_width : Z; c_img_height : Z
}.

Definition mk_feature (c : image_ctx) (row col tw th : option Z)
    (width height : Q) (geom : list point) : feature := {|
  f_mission_id := c_mission_id c; f_image_name := c_zoom_name c;
  f_tile_row := row; f_tile_col := col;
  f_latitude := c_lat c; f_longitude := c_lon c; f_altitude_m := c_altitude c;
  f_dsm_median_m := c_dsm_median c; f_flight_height_m := c_flight_height c;
  f_gsd_m := c_gsd c; f_footprint_width_m := width;
  f_footprint_height_m := height; f_footprint_area_m2 := width * height;
  f_image_width_px := c_img_width c; f_image_height_px := c_img_height c;
  f_tile_width_px := tw; f_tile_height_px := th; f_geometry := geom |}.

(** Body of the inner loop of the tile-crop branch. *)
Definition tile_feature (c : image_ctx) (tile_width_px tile_height_px : Z)
    (start_x start_y : Q) (row col : Z) : feature :=
  let tile_footprint_width := c_gsd c * inject_Z tile_width_px in
  let tile_footprint_height := c_gsd c * inject_Z tile_height_px in
  let tile_center_x := start_x + inject_Z col * tile_footprint_width
                       + tile_footprint_width / 2 in
  let tile_center_y := start_y - inject_Z row * tile_footprint_height
                       - tile_footprint_height / 2 in
  let half_width := tile_footprint_width / 2 in
  let half_height := tile_footprint_height / 2 in
  mk_feature c (Some row) (Some col) (Some tile_width_px) (Some tile_height_px)
    tile_footprint_width tile_footprint_height
    (rect (tile_center_x - half_width) (tile_center_y - half_height)
          (tile_center_x + half_width) (tile_center_y + half_height)).

(** The tile-crop branch, from [tiles_x = img_width // tile_width_px] to the
    end of the nested loops (row-major order). *)
Definition tile_features (c : image_ctx) (tile_width_px tile_height_px : Z)
  : result * list level :=
  if (tile_width_px =? 0)%Z || (tile_height_px =? 0)%Z then (Crash, []) else
  let tiles_x := (c_img_width c / tile_width_px)%Z in
  let tiles_y := (c_img_height c / tile_height_px)%Z in
  let full_footprint_width := c_gsd c * inject_Z (c_img_width c) in
  let full_footprint_height := c_gsd c * inject_Z (c_img_height c) in
  let '(center_x, center_y) := transform (c_lon c) (c_lat c) in
  let start_x := center_x - full_footprint_width / 2 in
  let start_y := center_y + full_footprint_height / 2 in
  (Emit (flat_map (fun row =>
           map (fun col => tile_feature c tile_width_px tile_height_px
                             start_x start_y row col)
               (zrange tiles_x))
         (zrange tiles_y)),
   [Info]).

(** [process_image_from_url(args)]; the three extraction steps enter as
    their results ([extract_gps_altitude_from_url],
    [get_image_dimensions_from_url], [sample_dsm_median]). *)
Definition process_image_from_url (mission_id zoom_name : string)
    (gps_data : option (Q * Q * Q)) (dims : option (Z * Z))
    (dsm_median : option Q) (sensor_width_mm focal_length_mm : Q)
    (center_crop : option Z) (tile_crop : option (Z * Z))
  : result * list level :=
  match gps_data with
  | None => (Skip, [Warning])
  | Some (lat, lon, altitude) =>
    match dims with
    | None => (Skip, [Warning])
    | Some (img_width, img_height) =>
      match dsm_median with
      | None => (Skip, [Warning])
      | Some dsm =>
        let flight_height := altitude - dsm in
        if Qle_bool flight_height 0 then (Skip, [Warning]) else
        match compute_gsd sensor_width_mm flight_height focal_length_mm img_width with
        | None => (Crash, [])
        | Some gsd =>
          let c := {| c_mission_id := mission_id; c_zoom_name := zoom_name;
                      c_lat := lat; c_lon := lon; c_altitude := altitude;
                      c_dsm_median := dsm; c_flight_height := flight_height;
                      c_gsd := gsd; c_img_width := img_width;
                      c_img_height := img_height |} in
          match tile_crop, center_crop with
          | Some (tw, th), _ => tile_features c tw th
          | None, Some cc =>
            if (cc =? 0)%Z then
              (* [center_crop == 0] is falsy: full-image branch *)
              let fw := gsd * inject_Z img_width in
              let fh := gsd * inject_Z img_height in
              (Emit [mk_feature c None None None None fw fh
                       (create_footprint_polygon lon lat fw fh)], [Info])
            else
              let fw := gsd * inject_Z cc in
              let fh := gsd * inject_Z cc in
              (Emit [mk_feature c None None None None fw fh
                       (create_footprint_polygon lon lat fw fh)], [Info])
          | None, None =>
            let fw := gsd * inject_Z img_width in
            let fh := gsd * inject_Z img_height in
            (Emit [mk_feature c None None None None fw fh
                     (create_footprint_polygon lon lat fw fh)], [Info])
          end
        end
      end
    end
  end.

End Process.

(** Pointwise equality of points, and the sum of a list of floats. *)
Definition peq (p q : point) : Prop := fst p == fst q /\ snd p == snd q.

Definition sumQ (l : list Q) : Q := fold_right Qplus 0 l.

(** [main]'s collection loop: [if result: all_features.extend(result)]; an
    empty list and [None] are both falsy. *)
Fixpoint collect_features (results : list result) : list feature :=
  match results with
  | [] => []
  | Emit ((_ :: _) as fs) :: t => fs ++ collect_features t
  | _ :: t => collect_features t
  end.

End Geometry.

(** ** EXIF GPS extraction *)
Module Exif.
Open Scope Q_scope.
Local Open Scope string_scope.

(** The [.values] of an exifread [IfdTag]: a list of [Ratio]s (each one
    modelled by its value [num / den]), an ASCII string, or a list of ints
    (BYTE and SHORT tags). *)
Inductive tagvals :=
| TRatios (l : list Q)
| TAscii (s : string)
| TInts (l : list Z).

(** The dict returned by [exifread.process_file]. *)
Definition tags := list (string * tagvals).

Fixpoint tag_get (k : string) (t : tags) : option tagvals :=
  match t with
  | [] => None
  | (k', v) :: t' => if String.eqb k k' then Some v else tag_get k t'
  end.

(** [exifread.process_file] returns the tags or raises [IndexError],
    [KeyError] or [ValueError]. *)
Inductive exif := ExifOk (t : tags) | ExifFail.

(** The part of a [requests.Response] the extractors read. *)
Record response := { status_code : Z; content : exif }.

(** [bool(response)] is [response.ok]: [status_code < 400]. *)
Definition resp_truthy (r : response) : bool := (status_code r <? 400)%Z.

(** Python [len(value.values)]. *)
Definition py_len (v : tagvals) : nat :=
  match v with
  | TRatios l => List.length l
  | TAscii s => String.length s
  | TInts l => List.length l
  end.

(** footprint script: [ref in ['S', 'W']], [ref] being the tag's [.values]. *)
Definition ref_in_SW (ref : tagvals) : bool :=
  match ref with
  | TAscii s => String.eqb s "S" || String.eqb s "W"
  | _ => false
  end.

(** points script: [ref.values and ref.values[0] in ['S', 'W']]. *)
Definition ref_first_in_SW (ref : tagvals) : bool :=
  match ref with
  | TAscii (String c _) => Ascii.eqb c "S"%char || Ascii.eqb c "W"%char
  | _ => false
  end.

(** footprint script: [dms_to_decimal(dms_value, ref)]. [None] stands for a
    raised exception: [IndexError] for fewer than three values,
    [AttributeError] when the values are not rationals. Values beyond the
    third are not read. *)
Definition dms_to_decimal (dms_value ref : tagvals) : option Q :=
  match dms_value with
  | TRatios (degrees :: minutes :: seconds :: _) =>
    let decimal := degrees + minutes / 60 + seconds / 3600 in
    Some (if ref_in_SW ref then - decimal else decimal)
  | _ => None
  end.

(** points script: [convert_to_decimal_degrees(value, ref)]. [None] stands
    for the [ValueError] raised on a length other than three, or the
    [AttributeError] of non-rational values. *)
Definition convert_to_decimal_degrees (value ref : tagvals) : option Q :=
  if negb (Nat.eqb (py_len value) 3) then None else
  match value with
  | TRatios [d; m; s] =>
    let decimal_degrees := d + m / 60 + s / 3600 in
    Some (if ref_first_in_SW ref then - decimal_degrees else decimal_degrees)
  | _ => None
  end.

(** points script: [get_coordinates_from_image_url]; the argument is what
    [safe_request] returned ([None] after its retries failed). *)
Definition get_coordinates_from_image_url (response : option response)
  : option (Q * Q) * list level :=
  match response with
  | Some r =>
    if resp_truthy r && (status_code r =? 200)%Z then
      match content r with
      | ExifFail => (None, [Error])
      | ExifOk t =>
        match tag_get "GPS GPSLatitude" t, tag_get "GPS GPSLatitudeRef" t,
              tag_get "GPS GPSLongitude" t, tag_get "GPS GPSLongitudeRef" t with
        | Some latitude, Some latitude_ref, Some longitude, Some longitude_ref =>
          match convert_to_decimal_degrees latitude latitude_ref with
          | None => (None, [Error])
          | Some lat =>
            match convert_to_decimal_degrees longitude longitude_ref with
            | None => (None, [Error])
            | Some lon => (Some (lat, lon), [])
            end
          end
        | _, _, _, _ => (None, [Warning])
        end
      end
    else if resp_truthy r then (None, [Error]) else (None, [])
  | None => (None, [])
  end.

(** footprint script: [tags['GPS GPSAltitudeRef'].values[0] == 1]; [None]
    for the [IndexError] of an empty value. *)
Definition alt_ref_is_one (v : tagvals) : option bool :=
  match v with
  | TInts (b :: _) => Some (b =? 1)%Z
  | TRatios (q :: _) => Some (Qeq_bool q 1)
  | TAscii (String _ _) => Some false
  | _ => None
  end.

(** footprint script: [extract_gps_altitude_from_url]; every exception is
    caught by its outer [except Exception] and logged as an error. *)
Definition extract_gps_altitude_from_url (response : option response)
  : option (Q * Q * Q) * list level :=
  match response with
  | Some r =>
    if resp_truthy r && (status_code r =? 200)%Z then
      match content r with
      | ExifFail => (None, [Error])
      | ExifOk t =>
        match tag_get "GPS GPSLatitude" t, tag_get "GPS GPSLongitude" t with
        | Some latv, Some lonv =>
          match tag_get "GPS GPSLatitudeRef" t with
          | None => (None, [Error])
          | Some latref =>
            match dms_to_decimal latv latref with
            | None => (None, [Error])
            | Some lat =>
              match tag_get "GPS GPSLongitudeRef" t with
              | None => (None, [Error])
              | Some lonref =>
                match dms_to_decimal lonv lonref with
                | None => (None, [Error])
                | Some lon =>
                  match tag_get "GPS GPSAltitude" t with
                  | None => (None, [])
                  | Some (TRatios (a :: _)) =>
                    match tag_get "GPS GPSAltitudeRef" t with
                    | None => (Some (lat, lon, a), [])
                    | Some refv =>
                      match alt_ref_is_one refv with
                      | None => (None, [Error])
                      | Some true => (Some (lat, lon, - a), [])
                      | Some false => (Some (lat, lon, a), [])
                      end
                    end
                  | Some _ => (None, [Error])
                  end
                end
              end
            end
          end
        | _, _ => (None, [])
        end
      end
    else if resp_truthy r then (None, [Error]) else (None, [])
  | None => (None, [])
  end.

End Exif.

(** ** Points pipeline: [arbutuspictures2points.main] *)
Module Points.

(** A row of the points layer. *)
Record row := {
  r_mission_id : string;
  r_point_id : string;
  r_wide_url : string;
  r_zoom_url : string;
  r_geometry : Q * Q
}.

Definition row_key := (string * string * string)%type.

(** The deduplication subset [['mission_id', 'point_id', 'wide_url']]. *)
Definition key (r : row) : row_key := (r_mission_id r, r_point_id r, r_wide_url r).

Definition key_eqb (a b : row_key) : bool :=
  let '(a1, a2, a3) := a in
  let '(b1, b2, b3) := b in
  String.eqb a1 b1 && String.eqb a2 b2 && String.eqb a3 b3.

(** [drop_duplicates(subset=...)] with its default [keep='first']. *)
Fixpoint drop_duplicates_aux (seen : list row_key) (l : list row) : list row :=
  match l with
  | [] => []
  | r :: t =>
    if existsb (key_eqb (key r)) seen then drop_duplicates_aux seen t
    else r :: drop_duplicates_aux (key r :: seen) t
  end.

Definition drop_duplicates (l : list row) : list row := drop_duplicates_aux [] l.

Definition base_url : string := "https://object-arbutus.cloud.computecanada.ca".

(** [f"{base_url}/{folder}/{file}"] *)
Definition object_url (folder file : string) : string :=
  String.append base_url (String.append "/" (String.append folder (String.append "/" file))).

(** The string-level helpers of the script. *)
Record naming := {
  (** [os.path.basename(z).split("_")[-1].lower().replace("zoom.jpg", "")] *)
  zoom_identifier : string -> string;
  (** [os.path.basename(w).split('_')[-1].lower().replace('jpg', '')
       .replace('.', '').replace('zoom', '')] *)
  wide_key : string -> string;
  (** [re.search(rf'_{identifier}\.jpg$', os.path.basename(w), re.IGNORECASE)] *)
  wide_matches : string -> string -> bool;
  (** [f.endswith('.JPG') and 'zoom' not in f.lower()] *)
  is_wide : string -> bool;
  (** [f.endswith('.JPG') and 'zoom' in f.lower()] *)
  is_zoom : string -> bool
}.

(** The points layer on disk: [None] when the file does not exist. *)
Definition layer := option (list row).

Definition layer_rows (L : layer) : list row :=
  match L with Some rs => rs | None => [] end.

Fixpoint somes {A : Type} (l : list (option A)) : list A :=
  match l with
  | [] => []
  | Some x :: t => x :: somes t
  | None :: t => somes t
  end.

Section Pipeline.

Variable nm : naming.
(** [get_coordinates_from_image_url(url, session)] against the remote store:
    [(latitude, longitude)] or [None]. *)
Variable coordinates_of : string -> option (Q * Q).

(** [process_zoom_file((zoom_file, wide_files, folder))]: the first wide
    file matching the identifier ([break]). *)
Definition process_zoom_file (zoom_file : string) (wide_files : list string)
    (folder : string) : option row :=
  let identifier_match := zoom_identifier nm zoom_file in
  match find (wide_matches nm identifier_match) wide_files with
  | None => None
  | Some wide_file =>
    let wide_url := object_url folder wide_file in
    let zoom_url := object_url folder zoom_file in
    match coordinates_of wide_url with
    | Some (lat, lon) =>
      Some {| r_mission_id := folder; r_point_id := identifier_match;
              r_wide_url := wide_url; r_zoom_url := zoom_url;
              r_geometry := (lon, lat) |}
    | None => None
    end
  end.

(** [set(existing_gdf['mission_id'].unique())] *)
Definition existing_missions (L : layer) : list string :=
  map r_mission_id (layer_rows L).

(** [set(zip(existing_gdf[...]['wide_url'], existing_gdf[...]['point_id']))]
    for one mission. *)
Definition existing_points (L : layer) (folder : string) : list (string * string) :=
  map (fun r => (r_wide_url r, r_point_id r))
      (filter (fun r => String.eqb (r_mission_id r) folder) (layer_rows L)).

(** [wide_lookup.get(k)]: the dict comprehension keeps the last wide file
    of each key. *)
Definition wide_lookup (wide_files : list string) (k : string) : option string :=
  fold_left (fun acc wf => if String.eqb (wide_key nm wf) k then Some wf else acc)
            wide_files None.

Definition pair_eqb (a b : string * string) : bool :=
  String.eqb (fst a) (fst b) && String.eqb (snd a) (snd b).

(** The test of the skip loop: the zoom file's [(wide_url, point_id)] pair,
    with the wide file taken from [wide_lookup], is not yet present. *)
Definition zoom_needed (L : layer) (folder : string) (wide_files : list string)
    (zoom_file : string) : bool :=
  let identifier_match := zoom_identifier nm zoom_file in
  match wide_lookup wide_files identifier_match with
  | Some wide_file =>
    negb (existsb (pair_eqb (object_url folder wide_file, identifier_match))
                  (existing_points L folder))
  | None => false
  end.

(** The zoom files processed for one folder; [None] is the [continue] taken
    when every point of a known mission is present. *)
Definition zooms_to_process (L : layer) (folder : string)
    (wide_files zoom_files : list string) : option (list string) :=
  if existsb (String.eqb folder) (existing_missions L) then
    let zoom_files_to_add := filter (zoom_needed L folder wide_files) zoom_files in
    match zoom_files_to_add with
    | [] => None
    | _ => Some zoom_files_to_add
    end
  else Some zoom_files.

(** The rows one folder contributes. *)
Definition folder_rows (L : layer) (folder : string) (files : list string) : list row :=
  let wide_files := filter (is_wide nm) files in
  let zoom_files := filter (is_zoom nm) files in
  match zooms_to_process L folder wide_files zoom_files with
  | None => []
  | Some zs => somes (map (fun z => process_zoom_file z wide_files folder) zs)
  end.

(** The loop over the matching folders, each with its file listing. *)
Definition run_folders (L : layer) (store : list (string * list string)) : list row :=
  flat_map (fun fl => folder_rows L (fst fl) (snd fl)) store.

(** [main]: the layer on disk after one run. *)
Definition main (L : layer) (store : list (string * list string)) : layer :=
  match run_folders L store with
  | [] => L
  | rows =>
    match L with
    | Some ((_ :: _) as existing) => Some (drop_duplicates (existing ++ rows))
    | _ => Some rows
    end
  end.

End Pipeline.

(** Every key of the first layer is a key of the second. *)
Definition layer_sub (L0 L1 : layer) : Prop :=
  forall r, In r (layer_rows L0) ->
    exists r', In r' (layer_rows L1) /\ key r' = key r.

End Points.

(** ** The footprint script's [main] *)
Module FootprintMain.
Import Dsm Geometry.

(** An entry of the DSM directory as [os.listdir] and [os.path.isfile] see
    it: its path, whether it is a regular file, whether its lower-cased name
    ends in [.tif] or [.tiff], and the outcome of the [YYYYMMDD] search:
    [None] when no run of 8 digits occurs, [Some None] when [strptime]
    rejects the digits, [Some (Some d)] for the date [d]. *)
Record dsm_entry := {
  de_path : string;
  de_is_file : bool;
  de_is_tiff : bool;
  de_date : option (option Z)
}.

(** [find_dsm_files(dsm_dir)] *)
Definition find_dsm_files (dir_exists : bool) (entries : list dsm_entry)
  : list dsm_file * list level :=
  if negb dir_exists then ([], [Error]) else
  fold_right (fun e acc =>
    let '(fs, log) := acc in
    if de_is_file e && de_is_tiff e then
      match de_date e with
      | Some (Some d) => ((de_path e, d) :: fs, Info :: log)
      | _ => (fs, Warning :: log)
      end
    else (fs, log)) ([], []) entries.

(** The inputs of one [process_image_from_url] call, as its I/O returns
    them: [extract_gps_altitude_from_url], [get_image_dimensions_from_url]
    and [sample_dsm_median]. *)
Record image_input := {
  ii_zoom_name : string;
  ii_gps : option (Q * Q * Q);
  ii_dims : option (Z * Z);
  ii_dsm : option Q
}.

(** The command-line arguments and the DSM directory. *)
Record args := {
  dsm_dir_exists : bool;
  dsm_entries : list dsm_entry;
  sensor_width : Q;
  focal_length : Q;
  center_crop : option Z;
  tile_crop : option (Z * Z);
  folders : list string
}.

(** Python truthiness of [args.center_crop] (an [int] or [None]) and of
    [args.tile_crop] (a two-element list or [None]). *)
Definition center_crop_truthy (a : args) : bool :=
  match center_crop a with Some n => negb (n =? 0)%Z | None => false end.

Definition tile_crop_truthy (a : args) : bool :=
  match tile_crop a with Some _ => true | None => false end.

(** [if args.center_crop and args.tile_crop] *)
Definition crops_conflict (a : args) : bool :=
  center_crop_truthy a && tile_crop_truthy a.

Definition is_crash (r : result) : bool :=
  match r with Crash => true | _ => false end.

Section Main.

Variable transform : Q -> Q -> point.
(** [extract_date_from_mission_id(folder)]; it logs a warning itself when it
    returns [None]. *)
Variable mission_date : string -> option Z.
(** The file listing of a folder and the wide-picture matching: the log they
    write and the inputs of the zoom pictures that have a wide picture, for
    the selected DSM. *)
Variable images : string -> string -> list level * list image_input.

(** The loop over the folders: [None] when [list(executor.map(...))]
    re-raises the exception of a worker. *)
Fixpoint run_folders (a : args) (dsm_files : list dsm_file) (fs : list string)
  : option (list feature) * list level :=
  match fs with
  | [] => (Some [], [])
  | folder :: t =>
    match mission_date folder with
    | None =>
      let '(r, rlog) := run_folders a dsm_files t in
      (r, Info :: Warning :: Warning :: rlog)
    | Some d =>
      let '(sel, slog) := select_closest_dsm d dsm_files in
      match sel with
      | None =>
        let '(r, rlog) := run_folders a dsm_files t in
        (r, Info :: Info :: slog ++ Error :: rlog)
      | Some dsm_path =>
        let '(llog, inputs) := images folder dsm_path in
        let outs := map (fun i =>
          process_image_from_url transform folder (ii_zoom_name i) (ii_gps i)
            (ii_dims i) (ii_dsm i) (sensor_width a) (focal_length a)
            (center_crop a) (tile_crop a)) inputs in
        let log := Info :: Info :: slog ++ llog ++ flat_map snd outs in
        if existsb is_crash (map fst outs) then (None, log)
        else
          let '(r, rlog) := run_folders a dsm_files t in
          (option_map (app (collect_features (map fst outs))) r,
           log ++ Info :: rlog)
      end
    end
  end.

Inductive outcome := Exit (code : Z) | Raised.

(** [main()]: the way the process ends and the levels it logs, after
    [setup_logging]; [write_vector_layer] is taken to succeed. *)
Definition main (a : args) : outcome * list level :=
  if negb (dsm_dir_exists a) then (Exit 1, [Error]) else
  let '(dsm_files, flog) := find_dsm_files true (dsm_entries a) in
  match dsm_files with
  | [] => (Exit 1, Info :: flog ++ [Error])
  | _ =>
    if crops_conflict a then (Exit 1, Info :: flog ++ [Info; Error]) else
    let plog := Info :: flog ++ [Info; Info; Info; Info] ++
                (if center_crop_truthy a then [Info] else []) ++
                (if tile_crop_truthy a then [Info] else []) ++
                [Info; Info; Info; Info] in
    let '(r, rlog) := run_folders a dsm_files (folders a) in
    match r with
    | None => (Raised, plog ++ rlog)
    | Some [] => (Exit 1, plog ++ rlog ++ [Warning])
    | Some _ => (Exit 0, plog ++ rlog ++ [Info])
    end
  end.

End Main.

End FootprintMain.

(** ** Python string helpers used by the points script *)
Module PyStr.
Local Open Scope string_scope.

(** [s.lower()] on ASCII. *)
Fixpoint lower (s : string) : string :=
  match s with
  | EmptyString => EmptyString
  | String c s' =>
    let n := Ascii.nat_of_ascii c in
    String (if (65 <=? n)%nat && (n <=? 90)%nat then Ascii.ascii_of_nat (n + 32) else c)
           (lower s')
  end.

Definition contains (pat s : string) : bool :=
  match String.index 0 pat s with Some _ => true | None => false end.

(** [s.endswith(suffix)] *)
Definition endswith (suffix s : string) : bool :=
  (String.length suffix <=? String.length s)%nat &&
  String.eqb (substring (String.length s - String.length suffix)
                        (String.length suffix) s) suffix.

(** [s.split(sep)[-1]] for a one-character separator. *)
Fixpoint split_last (sep : ascii) (s : string) : string :=
  match s with
  | EmptyString => EmptyString
  | String c s' =>
    if contains (String sep EmptyString) s' then split_last sep s'
    else if Ascii.eqb c sep then s' else s
  end.

(** [os.path.basename(p)] *)
Definition basename (p : string) : string := split_last "/"%char p.

(** [s.replace(pat, "")] for a non-empty [pat]; [n] bounds the steps. *)
Fixpoint remove_all_aux (n : nat) (pat s : string) : string :=
  match n with
  | O => s
  | S n' =>
    match s with
    | EmptyString => EmptyString
    | String c s' =>
      if String.prefix pat s
      then remove_all_aux n' pat
             (substring (String.length pat) (String.length s - String.length pat) s)
      else String c (remove_all_aux n' pat s')
    end
  end.

Definition remove_all (pat s : string) : string :=
  if String.eqb pat "" then s else remove_all_aux (String.length s) pat s.

End PyStr.

(** The script's helpers on file names. [wide_matches] reads the regular
    expression [_{identifier}\.jpg$] with [re.IGNORECASE] as a
    case-insensitive suffix test, which it is for identifiers without
    regular-expression metacharacters. *)
Definition arbutus_naming : Points.naming := {|
  Points.zoom_identifier := fun z =>
    PyStr.remove_all "zoom.jpg" (PyStr.lower (PyStr.split_last "_"%char (PyStr.basename z)));
  Points.wide_key := fun w =>
    PyStr.remove_all "zoom" (PyStr.remove_all "." (PyStr.remove_all "jpg"
      (PyStr.lower (PyStr.split_last "_"%char (PyStr.basename w)))));
  Points.wide_matches := fun identifier w =>
    PyStr.endswith (String.append "_" (String.append (PyStr.lower identifier) ".jpg"))
                   (PyStr.lower (PyStr.basename w));
  Points.is_wide := fun f =>
    PyStr.endswith ".JPG" f && negb (PyStr.contains "zoom" (PyStr.lower f));
  Points.is_zoom := fun f =>
    PyStr.endswith ".JPG" f && PyStr.contains "zoom" (PyStr.lower f)
|}%string.

(** ** HTTP requests: [safe_request] (same body in both scripts) *)
Module Requests.

Section SafeRequest.

Context {A : Type}.
(** [session.get(url, timeout=timeout)] at attempt [k]: the response, or
    [None] when it raises one of the caught [requests] exceptions. *)
Variable get : Z -> option A.
Variable max_retries : Z.

(** The [for attempt in range(max_retries)] loop over the remaining
    attempts: the value returned, the levels logged, the [time.sleep]
    durations and the attempts for which [session.get] was called. Falling
    off the loop returns [None] implicitly. *)
Fixpoint safe_request_loop (attempts : list Z)
  : option A * list level * list Z * list Z :=
  match attempts with
  | [] => (None, [], [], [])
  | attempt :: rest =>
    match get attempt with
    | Some response => (Some response, [], [], [attempt])
    | None =>
      if (attempt <? max_retries - 1)%Z then
        let '(r, log, sleeps, calls) := safe_request_loop rest in
        (r, Error :: log, (2 ^ attempt)%Z :: sleeps, attempt :: calls)
      else (None, [Error; Error], [], [attempt])
    end
  end.

Definition safe_request : option A * list level * list Z * list Z :=
  safe_request_loop (Geometry.zrange max_retries).

End SafeRequest.

End Requests.

(** ** Logging set-up of the footprint script: [setup_logging] *)
Module Logging.

(** The [logging] level numbers. *)
Definition DEBUG : Z := 10.
Definition INFO : Z := 20.
Definition WARNING : Z := 30.
Definition ERROR : Z := 40.

(** A handler: its level and the result of its filters on [record.levelno]. *)
Record handler := { h_level : Z; h_filter : Z -> bool }.

Inductive sink := Stdout | InfoFile | Stderr | ErrorFile.

Definition sink_eqb (a b : sink) : bool :=
  match a, b with
  | Stdout, Stdout | InfoFile, InfoFile | Stderr, Stderr | ErrorFile, ErrorFile => true
  | _, _ => false
  end.

(** The four handlers [setup_logging] installs, in order, after
    [logger.handlers = []]. *)
Definition project2D_handlers : list (sink * handler) :=
  [(Stdout, {| h_level := INFO; h_filter := fun n => (n =? INFO)%Z |});
   (InfoFile, {| h_level := INFO; h_filter := fun n => (n =? INFO)%Z |});
   (Stderr, {| h_level := WARNING; h_filter := fun _ => true |});
   (ErrorFile, {| h_level := WARNING; h_filter := fun _ => true |})].

(** [logger.setLevel(logging.INFO)] *)
Definition logger_level : Z := INFO.

(** The sinks a record of level [levelno] sent to the ['project2D'] logger
    is written to: [Logger.isEnabledFor], then for each handler the level
    test of [callHandlers] and the filters of [Handler.handle]. The root
    logger it propagates to has no handler. *)
Definition emit_sinks (levelno : Z) : list sink :=
  if (levelno <? logger_level)%Z then [] else
  map fst (filter (fun sh => (h_level (snd sh) <=? levelno)%Z && h_filter (snd sh) levelno)
                  project2D_handlers).

End Logging.

(** ** Dates: [extract_date_from_mission_id] and the [datetime] it returns *)
Module Dates.

(** A [datetime] at midnight, as [(year, month, day)]. *)
Definition date := (Z * Z * Z)%type.

(** CPython's [datetime] helpers [_is_leap], [_days_in_month],
    [_days_before_year], [_days_before_month] and [date.toordinal]. *)
Definition is_leap (year : Z) : bool :=
  (year mod 4 =? 0)%Z && (negb (year mod 100 =? 0)%Z || (year mod 400 =? 0)%Z).

Definition DAYS_IN_MONTH : list Z := [-1; 31; 28; 31; 30; 31; 30; 31; 31; 30; 31; 30; 31]%Z.

Definition DAYS_BEFORE_MONTH : list Z := [-1; 0; 31; 59; 90; 120; 151; 181; 212; 243; 273; 304; 334]%Z.

Definition days_in_month (year month : Z) : Z :=
  if (month =? 2)%Z && is_leap year then 29%Z
  else nth (Z.to_nat month) DAYS_IN_MONTH 0%Z.

Definition days_before_year (year : Z) : Z :=
  let y := (year - 1)%Z in (y * 365 + y / 4 - y / 100 + y / 400)%Z.

Definition days_before_month (year month : Z) : Z :=
  (nth (Z.to_nat month) DAYS_BEFORE_MONTH 0 +
   if (2 <? month)%Z && is_leap year then 1 else 0)%Z.

Definition toordinal (dt : date) : Z :=
  let '(year, month, day) := dt in
  (days_before_year year + days_before_month year month + day)%Z.

(** The argument checks of the [date] constructor ([MINYEAR] is 1,
    [MAXYEAR] is 9999). *)
Definition valid_date (year month day : Z) : bool :=
  (1 <=? year)%Z && (year <=? 9999)%Z && (1 <=? month)%Z && (month <=? 12)%Z &&
  (1 <=? day)%Z && (day <=? days_in_month year month)%Z.

(** Comparison of two [datetime] values: lexicographic on the fields. *)
Definition date_ltb (a b : date) : bool :=
  let '(y, m, d) := a in
  let '(y', m', d') := b in
  (y <? y')%Z || (y =? y')%Z && ((m <? m')%Z || (m =? m')%Z && (d <? d')%Z).

(** The regular-expression class [\d] on an ASCII character, with its
    value. *)
Definition digit (c : ascii) : option Z :=
  let n := Z.of_nat (nat_of_ascii c) in
  if (48 <=? n)%Z && (n <=? 57)%Z then Some (n - 48)%Z else None.

(** The alternatives of [_strptime]'s group [(?P<m>1[0-2]|0[1-9]|[1-9])]
    that match at the start of [s], in the order the regular expression
    engine tries them: the month and the text after it. *)
Definition m_alts (s : string) : list (Z * string) :=
  (match s with
   | String c1 (String c2 r) =>
     match digit c2 with
     | Some v => if Ascii.eqb c1 "1"%char && (v <=? 2)%Z then [(10 + v, r)%Z] else []
     | None => []
     end
   | _ => []
   end) ++
  (match s with
   | String c1 (String c2 r) =>
     match digit c2 with
     | Some v => if Ascii.eqb c1 "0"%char && (1 <=? v)%Z then [(v, r)] else []
     | None => []
     end
   | _ => []
   end) ++
  (match s with
   | String c r =>
     match digit c with
     | Some v => if (1 <=? v)%Z then [(v, r)] else []
     | None => []
     end
   | _ => []
   end).

(** The same for [(?P<d>3[01]|[12]\d|0[1-9]|[1-9]| [1-9])]. *)
Definition d_alts (s : string) : list (Z * string) :=
  (match s with
   | String c1 (String c2 r) =>
     match digit c2 with
     | Some v => if Ascii.eqb c1 "3"%char && (v <=? 1)%Z then [(30 + v, r)%Z] else []
     | None => []
     end
   | _ => []
   end) ++
  (match s with
   | String c1 (String c2 r) =>
     match digit c1, digit c2 with
     | Some v1, Some v2 =>
       if (1 <=? v1)%Z && (v1 <=? 2)%Z then [(10 * v1 + v2, r)%Z] else []
     | _, _ => []
     end
   | _ => []
   end) ++
  (match s with
   | String c1 (String c2 r) =>
     match digit c2 with
     | Some v => if Ascii.eqb c1 "0"%char && (1 <=? v)%Z then [(v, r)] else []
     | None => []
     end
   | _ => []
   end) ++
  (match s with
   | String c r =>
     match digit c with
     | Some v => if (1 <=? v)%Z then [(v, r)] else []
     | None => []
     end
   | _ => []
   end) ++
  (match s with
   | String c1 (String c2 r) =>
     match digit c2 with
     | Some v => if Ascii.eqb c1 " "%char && (1 <=? v)%Z then [(v, r)] else []
     | None => []
     end
   | _ => []
   end).

(** The first element of [l] on which [f] gives a value. *)
Fixpoint first_some {X Y : Type} (f : X -> option Y) (l : list X) : option Y :=
  match l with
  | [] => None
  | x :: t => match f x with Some y => Some y | None => first_some f t end
  end.

(** [format_regex.match(data_string)] for the format ['%Y%m%d'], whose
    regular expression is [(?P<Y>\d\d\d\d)] followed by the month and day
    groups: the first match with backtracking, as year, month, day and the
    unmatched rest. *)
Definition match_Ymd (s : string) : option (Z * Z * Z * string) :=
  match s with
  | String c1 (String c2 (String c3 (String c4 r))) =>
    match digit c1, digit c2, digit c3, digit c4 with
    | Some a, Some b, Some c, Some d =>
      let year := (1000 * a + 100 * b + 10 * c + d)%Z in
      first_some (fun mr =>
        match d_alts (snd mr) with
        | (day, rest) :: _ => Some (year, fst mr, day, rest)
        | [] => None
        end) (m_alts r)
    | _, _, _, _ => None
    end
  | _ => None
  end.

(** [datetime.strptime(date_str, '%Y%m%d')]: [None] for its [ValueError]s
    (no match, unconverted data remains, or a date the [date] constructor
    rejects). *)
Definition strptime_Ymd (date_str : string) : option date :=
  match match_Ymd date_str with
  | Some (year, month, day, rest) =>
    if String.eqb rest EmptyString && valid_date year month day
    then Some (year, month, day) else None
  | None => None
  end.

(** [re.match(r'^(\d{8})', s)]: the first eight characters when all are
    digits. *)
Definition leading8 (s : string) : option string :=
  match s with
  | String c1 (String c2 (String c3 (String c4 (String c5 (String c6 (String c7 (String c8 _))))))) =>
    if forallb (fun c => match digit c with Some _ => true | None => false end)
               [c1; c2; c3; c4; c5; c6; c7; c8]
    then Some (String c1 (String c2 (String c3 (String c4 (String c5 (String c6 (String c7 (String c8 EmptyString))))))))
    else None
  | _ => None
  end.

(** [re.search(r'(\d{8})', s)]: the leftmost run of eight digits. *)
Fixpoint search8 (s : string) : option string :=
  match leading8 s with
  | Some ds => Some ds
  | None => match s with EmptyString => None | String _ r => search8 r end
  end.

(** [extract_date_from_mission_id(mission_id)]; both failures log a
    warning. *)
Definition extract_date_from_mission_id (mission_id : string)
  : option date * list level :=
  match leading8 mission_id with
  | Some date_str =>
    match strptime_Ymd date_str with
    | Some dt => (Some dt, [])
    | None => (None, [Warning])
    end
  | None => (None, [Warning])
  end.

(** The eight-digit text [YYYYMMDD] of a date, zero-padded. *)
Definition digit_char (n : Z) : ascii := ascii_of_nat (48 + Z.to_nat n).

Definition ymd_text (year month day : Z) : string :=
  String (digit_char (year / 1000)) (String (digit_char ((year / 100) mod 10))
  (String (digit_char ((year / 10) mod 10)) (String (digit_char (year mod 10))
  (String (digit_char (month / 10)) (String (digit_char (month mod 10))
  (String (digit_char (day / 10)) (String (digit_char (day mod 10)) EmptyString))))))).

(** [os.path.join(dsm_dir, file)] for a relative [file]. *)
Definition path_join (a b : string) : string :=
  if String.eqb a EmptyString || PyStr.endswith "/" a then String.append a b
  else String.append a (String.append "/" b).

(** One entry of [os.listdir(dsm_dir)] as the loop of [find_dsm_files] reads
    it: the extension test on the lower-cased name, the [(\d{8})] search and
    [strptime]; the date is kept as its day number. *)
Definition dsm_entry_of_listing (dsm_dir file : string) (is_file : bool)
  : FootprintMain.dsm_entry := {|
  FootprintMain.de_path := path_join dsm_dir file;
  FootprintMain.de_is_file := is_file;
  FootprintMain.de_is_tiff :=
    existsb (fun ext => PyStr.endswith ext (PyStr.lower file)) [".tif"; ".tiff"]%string;
  FootprintMain.de_date :=
    match search8 file with
    | Some date_str => Some (option_map toordinal (strptime_Ymd date_str))
    | None => None
    end |}.

(** Number of days of year [y]. *)
Definition days_in_year (y : Z) : Z := if is_leap y then 366%Z else 365%Z.

(** A DSM entry whose date parsed. *)
Definition dated (e : FootprintMain.dsm_entry) : bool :=
  match FootprintMain.de_date e with Some (Some _) => true | _ => false end.

(** The mission date [main] compares, as a day number. *)
Definition mission_day (mission_id : string) : option Z :=
  option_map toordinal (fst (extract_date_from_mission_id mission_id)).

End Dates.

(* ================================================================== *)
(** ** Footprint rectangles *)

Module Footprints.
Import Geometry.

(** Open interior of a north-up rectangle written as the ring
    [SW, SE, NE, NW, SW] that [rect] and [create_footprint_polygon] build. *)
Definition in_interior (q : point) (g : list point) : Prop :=
  match g with
  | [(x0, y0); (x1, _); (_, y2); _; _] => x0 < fst q < x1 /\ y0 < snd q < y2
  | _ => False
  end.

End Footprints.

(* ================================================================== *)
(** ** Picture names *)

Module Naming.

(** A text made of ASCII digits only, such as the [0001] of the pictures
    [..._0001.JPG] and [..._0001zoom.JPG]. *)
Fixpoint digits_only (s : string) : bool :=
  match s with
  | EmptyString => true
  | String c s' =>
    (48 <=? nat_of_ascii c)%nat && (nat_of_ascii c <=? 57)%nat && digits_only s'
  end.

End Naming.

(** ** Sample inputs *)
Module Samples.
Import Exif.
Open Scope Q_scope.

(** A well-formed GPS block: 45 30' 36" N, 73 34' 12" W, 150 m. *)
Definition gps_block : tags :=
  [("GPS GPSLatitudeRef", TAscii "N"); ("GPS GPSLatitude", TRatios [45; 30; 36]);
   ("GPS GPSLongitudeRef", TAscii "W"); ("GPS GPSLongitude", TRatios [73; 34; 12])]%string.

(** A wptX folder whose two zoom pictures share the identifier 0001, and a
    second point 0002. *)
Definition sample_folder : string := "20240101_site_wptX"%string.

Definition sample_store : list (string * list string) :=
  [(sample_folder, ["A_0001zoom.JPG"; "B_0001zoom.JPG"; "IMG_0001.JPG";
                    "C_0002zoom.JPG"; "IMG_0002.JPG"]%string)].

Definition sample_coords (url : string) : option (Q * Q) := Some (45 # 1, -73 # 1).

Definition sample_row : Points.row := {|
  Points.r_mission_id := sample_folder;
  Points.r_point_id := "0002";
  Points.r_wide_url := Points.object_url sample_folder "IMG_0002.JPG";
  Points.r_zoom_url := Points.object_url sample_folder "C_0002zoom.JPG";
  Points.r_geometry := (-73 # 1, 45 # 1) |}%string.

(** Inputs of the footprint script: one dated DSM, one folder whose zoom
    picture has GPS data, EXIF dimensions and a DSM sample; the projection is
    the identity. *)
Definition sample_transform (x y : Q) : Geometry.point := (x, y).

Definition sample_mission_date (folder : string) : option Z := Some 19723%Z.

Definition sample_images (folder dsm_path : string)
  : list level * list FootprintMain.image_input :=
  ([Info], [{| FootprintMain.ii_zoom_name := "A_0001zoom.JPG";
               FootprintMain.ii_gps := Some (45 # 1, -73 # 1, 200 # 1);
               FootprintMain.ii_dims := Some (4000%Z, 3000%Z);
               FootprintMain.ii_dsm := Some (50 # 1) |}])%string.

Definition sample_dsm_entries : list FootprintMain.dsm_entry :=
  [{| FootprintMain.de_path := "dsm_20231231.tif";
      FootprintMain.de_is_file := true;
      FootprintMain.de_is_tiff := true;
      FootprintMain.de_date := Some (Some 19722%Z) |}]%string.

(** [--center-crop 0 --tile-crop 1000 1000] *)
Definition sample_args_crops : FootprintMain.args := {|
  FootprintMain.dsm_dir_exists := true;
  FootprintMain.dsm_entries := sample_dsm_entries;
  FootprintMain.sensor_width := 64 # 10;
  FootprintMain.focal_length := 299 # 10;
  FootprintMain.center_crop := Some 0%Z;
  FootprintMain.tile_crop := Some (1000%Z, 1000%Z);
  FootprintMain.folders := [sample_folder] |}.

(** No crop option and no matching folder. *)
Definition sample_args_no_folder : FootprintMain.args := {|
  FootprintMain.dsm_dir_exists := true;
  FootprintMain.dsm_entries := sample_dsm_entries;
  FootprintMain.sensor_width := 64 # 10;
  FootprintMain.focal_length := 299 # 10;
  FootprintMain.center_crop := None;
  FootprintMain.tile_crop := None;
  FootprintMain.folders := [] |}.

End Samples.

(* ================================================================== *)
(** * Proofs *)

Import Dsm Geometry Exif FootprintMain Points Samples.

(** ** DSM selection *)

Lemma max_by_date_in best l : In (max_by_date best l) (best :: l).
Proof.
  revert best; induction l as [|x t IH]; intros best; simpl; [auto|].
  destruct (snd best <? snd x)%Z.
  - destruct (IH x) as [E|E]; [rewrite <- E|]; auto.
  - destruct (IH best) as [E|E]; [rewrite <- E|]; auto.
Qed.

Lemma max_by_date_max best l :
  forall y, In y (best :: l) -> (snd y <= snd (max_by_date best l))%Z.
Proof.
  revert best; induction l as [|x t IH]; intros best y Hy; simpl in *.
  - destruct Hy as [<-|[]]; lia.
  - case_eq (snd best <? snd x)%Z; intros Hlt.
    + apply Z.ltb_lt in Hlt.
      destruct Hy as [<-|[<-|Hy]].
      * specialize (IH x x (or_introl eq_refl)). lia.
      * apply IH; left; reflexivity.
      * apply IH; right; exact Hy.
    + apply Z.ltb_ge in Hlt.
      destruct Hy as [<-|[<-|Hy]].
      * apply IH; left; reflexivity.
      * specialize (IH best best (or_introl eq_refl)). lia.
      * apply IH; right; exact Hy.
Qed.

(** Claim C1: [select_closest_dsm] returns the path of a catalog entry dated
    on or before the mission date whose date is maximal among all such
    entries; when the catalog is empty or no entry is dated on or before
    the mission date it returns [None] and logs an error. *)
Theorem select_closest_dsm_correct (mission_date : Z) (dsm_files : list dsm_file) :
  match select_closest_dsm mission_date dsm_files with
  | (Some path, _) =>
      exists d, In (path, d) dsm_files /\ (d <= mission_date)%Z /\
        forall p' d', In (p', d') dsm_files -> (d' <= mission_date)%Z -> (d' <= d)%Z
  | (None, log) =>
      log = [Error] /\ forall p d, In (p, d) dsm_files -> (mission_date < d)%Z
  end.
Proof.
  unfold select_closest_dsm.
  destruct dsm_files as [|e es] eqn:Ef.
  { split; [reflexivity | intros p d []]. }
  rewrite <- Ef.
  case_eq (filter (fun p => (snd p <=? mission_date)%Z) dsm_files).
  - intros Hnil; split; [reflexivity|].
    intros p d Hin.
    destruct (Z_lt_le_dec mission_date d) as [Hlt|Hle]; [exact Hlt|].
    assert (Hf : In (p, d) (filter (fun p => (snd p <=? mission_date)%Z) dsm_files)).
    { apply filter_In; split; [exact Hin|]. simpl; apply Z.leb_le; exact Hle. }
    rewrite Hnil in Hf; destruct Hf.
  - intros v vs Hvalid.
    assert (Hin : In (max_by_date v vs)
                    (filter (fun p => (snd p <=? mission_date)%Z) dsm_files)).
    { rewrite Hvalid; apply max_by_date_in. }
    pose proof (max_by_date_max v vs) as Hmax.
    destruct (max_by_date v vs) as [bp bd] eqn:Eb; simpl.
    apply filter_In in Hin; destruct Hin as [Hin Hle]; simpl in Hle.
    exists bd; split; [exact Hin|]. split; [apply Z.leb_le; exact Hle|].
    intros p' d' Hin' Hle'.
    apply (Hmax (p', d')).
    rewrite <- Hvalid; apply filter_In; split; [exact Hin'|].
    simpl; apply Z.leb_le; exact Hle'.
Qed.

(** The spec's example: DSMs dated [T-10], [T-5], [T+5] select the [T-5]
    one; a catalog holding only [T+5] fails. *)
Example select_closest_dsm_example :
  fst (select_closest_dsm 100 [("a.tif"%string, 90%Z); ("b.tif"%string, 95%Z); ("c.tif"%string, 105%Z)])
    = Some "b.tif"%string /\
  select_closest_dsm 100 [("c.tif"%string, 105%Z)] = (None, [Error]).
Proof. split; reflexivity. Qed.

(** ** Footprint geometry *)

Lemma in_zrange n z : In z (zrange n) -> (0 <= z < n)%Z.
Proof.
  unfold zrange; intros H; apply in_map_iff in H as [k [<- Hk]].
  apply in_seq in Hk; lia.
Qed.

Lemma length_zrange n : List.length (zrange n) = Z.to_nat n.
Proof. unfold zrange; rewrite length_map, length_seq; reflexivity. Qed.

Lemma length_flat_map_map {A B C : Type} (g : A -> B -> C) (L : list A) (l : list B) :
  List.length (flat_map (fun a => map (g a) l) L) = (List.length L * List.length l)%nat.
Proof.
  induction L as [|a L IH]; simpl; [reflexivity|].
  rewrite length_app, length_map, IH; reflexivity.
Qed.

(** Every feature of the tile branch is the tile of some in-range
    [(row, col)]. *)
Lemma tile_features_in transform c tw th fs log f :
  tile_features transform c tw th = (Emit fs, log) -> In f fs ->
  exists row col,
    (0 <= row < c_img_height c / th)%Z /\ (0 <= col < c_img_width c / tw)%Z /\
    f = tile_feature c tw th
          (fst (transform (c_lon c) (c_lat c)) - c_gsd c * inject_Z (c_img_width c) / 2)
          (snd (transform (c_lon c) (c_lat c)) + c_gsd c * inject_Z (c_img_height c) / 2)
          row col.
Proof.
  unfold tile_features.
  destruct ((tw =? 0)%Z || (th =? 0)%Z); [discriminate|].
  destruct (transform (c_lon c) (c_lat c)) as [cx cy]; simpl.
  intros Hp Hf; injection Hp as <- _.
  apply in_flat_map in Hf as [row [Hrow Hf]].
  apply in_map_iff in Hf as [col [<- Hcol]].
  exists row, col; split; [apply in_zrange; exact Hrow|].
  split; [apply in_zrange; exact Hcol | reflexivity].
Qed.

(** Whatever branch is taken, an emitted feature carries the image's
    flight height and GSD, and those were computed from found inputs with a
    positive flight height. *)
Lemma process_emit_inv transform mission zoom gps dims dsm sw fr cc tc fs log :
  process_image_from_url transform mission zoom gps dims dsm sw fr cc tc = (Emit fs, log) ->
  exists lat lon alt w h m gsd,
    gps = Some (lat, lon, alt) /\ dims = Some (w, h) /\ dsm = Some m /\
    0 < alt - m /\ compute_gsd sw (alt - m) fr w = Some gsd /\
    forall f, In f fs -> f_flight_height_m f = alt - m /\ f_gsd_m f = gsd.
Proof.
  unfold process_image_from_url.
  destruct gps as [[[lat lon] alt]|]; [|discriminate].
  destruct dims as [[w h]|]; [|discriminate].
  destruct dsm as [m|]; [|discriminate].
  case_eq (Qle_bool (alt - m) 0); intros Hle; [discriminate|].
  destruct (compute_gsd sw (alt - m) fr w) as [gsd|] eqn:Eg; [|discriminate].
  intros Hp. exists lat, lon, alt, w, h, m, gsd.
  split; [reflexivity|]. split; [reflexivity|]. split; [reflexivity|].
  split.
  { apply Qnot_le_lt; intros Hc; apply Qle_bool_iff in Hc; congruence. }
  split; [exact Eg|].
  intros f Hf.
  destruct tc as [[tw th]|].
  - destruct (tile_features_in _ _ _ _ _ _ f Hp Hf) as [row [col [_ [_ ->]]]].
    split; reflexivity.
  - destruct cc as [cc|]; [destruct (cc =? 0)%Z|];
      injection Hp as <- _; destruct Hf as [<-|[]]; split; reflexivity.
Qed.

(** Claim C2: once GPS, dimensions and DSM sampling have succeeded, a
    flight height [altitude - dsm_median <= 0] makes [process_image_from_url]
    return [None] with exactly one warning; and every emitted footprint
    carries [flight_height_m = altitude - dsm_median > 0]. *)
Theorem process_rejects_nonpositive_flight_height :
  (forall transform mission zoom lat lon altitude w h dsm sw fr cc tc,
     altitude - dsm <= 0 ->
     process_image_from_url transform mission zoom (Some (lat, lon, altitude))
       (Some (w, h)) (Some dsm) sw fr cc tc = (Skip, [Warning])) /\
  (forall transform mission zoom gps dims dsm_median sw fr cc tc fs log,
     process_image_from_url transform mission zoom gps dims dsm_median sw fr cc tc
       = (Emit fs, log) ->
     forall f, In f fs ->
       0 < f_flight_height_m f /\
       exists lat lon altitude w h dsm,
         gps = Some (lat, lon, altitude) /\ dims = Some (w, h) /\
         dsm_median = Some dsm /\ f_flight_height_m f = altitude - dsm).
Proof.
  split.
  - intros transform mission zoom lat lon altitude w h dsm sw fr cc tc Hle.
    unfold process_image_from_url.
    apply Qle_bool_iff in Hle; rewrite Hle; reflexivity.
  - intros transform mission zoom gps dims dsm_median sw fr cc tc fs log Hp f Hf.
    destruct (process_emit_inv _ _ _ _ _ _ _ _ _ _ _ _ Hp)
      as [lat [lon [alt [w [h [m [gsd [-> [-> [-> [Hpos [_ Hall]]]]]]]]]]]].
    destruct (Hall f Hf) as [Eh _].
    split; [rewrite Eh; exact Hpos|].
    exists lat, lon, alt, w, h, m; auto.
Qed.

(** The spec's example: altitude 90 m over a DSM median of 100 m. *)
Lemma process_rejects_nonpositive_flight_height_witness :
  process_image_from_url (fun lon lat => (lon, lat)) "m"%string "z"%string
    (Some (45, -73, 90)) (Some (5280%Z, 3956%Z)) (Some 100) (64 # 10) (299 # 10)
    None None = (Skip, [Warning]).
Proof.
  apply (proj1 process_rejects_nonpositive_flight_height).
  apply Qle_bool_iff; vm_compute; reflexivity.
Defined.

Lemma compute_gsd_pos sw h fr w :
  0 < fr -> (0 < w)%Z ->
  compute_gsd sw h fr w = Some ((sw * h) / (fr * inject_Z w)).
Proof.
  intros Hfr Hw. unfold compute_gsd.
  rewrite Zlt_Qlt in Hw.
  case_eq (Qeq_bool (fr * inject_Z w) 0); intros E; [|reflexivity].
  apply Qeq_bool_iff in E.
  exfalso; apply (Qlt_not_eq 0 (fr * inject_Z w)); [|symmetry; exact E].
  apply Qmult_lt_0_compat; assumption.
Qed.

Ltac q_nonzero :=
  repeat split; apply Qnot_eq_sym, Qlt_not_eq; assumption.

(** Claim C3: for a positive flight height [H], sensor width, focal length
    and image width, the GSD computed at line 481 is
    [(Sw * H) / (FR * imW)], every emitted footprint carries it as
    [gsd_m], doubling [H] doubles it and doubling [FR] halves it. *)
Theorem process_gsd_formula :
  forall transform mission zoom lat lon altitude w h dsm sw fr cc tc,
  0 < altitude - dsm -> 0 < sw -> 0 < fr -> (0 < w)%Z ->
  compute_gsd sw (altitude - dsm) fr w
    = Some ((sw * (altitude - dsm)) / (fr * inject_Z w)) /\
  (forall fs log,
     process_image_from_url transform mission zoom (Some (lat, lon, altitude))
       (Some (w, h)) (Some dsm) sw fr cc tc = (Emit fs, log) ->
     forall f, In f fs ->
       f_gsd_m f = (sw * (altitude - dsm)) / (fr * inject_Z w) /\
       f_flight_height_m f = altitude - dsm) /\
  (exists g2, compute_gsd sw (2 * (altitude - dsm)) fr w = Some g2 /\
     g2 == 2 * ((sw * (altitude - dsm)) / (fr * inject_Z w))) /\
  (exists g3, compute_gsd sw (altitude - dsm) (2 * fr) w = Some g3 /\
     g3 == ((sw * (altitude - dsm)) / (fr * inject_Z w)) / 2).
Proof.
  intros transform mission zoom lat lon altitude w h dsm sw fr cc tc Hh Hsw Hfr Hw.
  assert (Hwq : 0 < inject_Z w) by (change 0 with (inject_Z 0); rewrite <- Zlt_Qlt; exact Hw).
  split; [apply compute_gsd_pos; assumption|].
  split.
  { intros fs log Hp f Hf.
    destruct (process_emit_inv _ _ _ _ _ _ _ _ _ _ _ _ Hp)
      as [lat' [lon' [alt' [w' [h' [m' [gsd [Eg [Ed [Em [_ [Eq Hall]]]]]]]]]]]].
    injection Eg as <- <- <-. injection Ed as <- <-. injection Em as <-.
    rewrite compute_gsd_pos in Eq by assumption. injection Eq as <-.
    destruct (Hall f Hf); split; assumption. }
  split.
  - eexists; split; [apply compute_gsd_pos; assumption|].
    unfold Qdiv; ring.
  - eexists; split.
    + apply compute_gsd_pos; [|assumption].
      apply Qmult_lt_0_compat; [reflexivity | assumption].
    + field; q_nonzero.
Qed.

(** The spec's end-to-end figures: [H = 50 m], [Sw = 6.4 mm], [FR = 29.9 mm],
    [imW = 5280 px]. *)
Lemma process_gsd_formula_witness :
  compute_gsd (64 # 10) (150 - 100) (299 # 10) 5280
    = Some (((64 # 10) * (150 - 100)) / ((299 # 10) * inject_Z 5280)).
Proof.
  apply (process_gsd_formula (fun lon lat => (lon, lat)) "m"%string "z"%string
           45 (-73) 150 5280 3956 100 (64 # 10) (299 # 10) None None);
    vm_compute; reflexivity.
Defined.

Lemma rect_peq a b c d a' b' c' d' :
  a == a' -> b == b' -> c == c' -> d == d' ->
  Forall2 peq (rect a b c d) (rect a' b' c' d').
Proof.
  intros Ha Hb Hc Hd; unfold rect, peq.
  repeat constructor; simpl; assumption.
Qed.

Lemma sumQ_const {A : Type} (g : A -> Q) (c : Q) (l : list A) :
  (forall x, In x l -> g x = c) ->
  sumQ (map g l) == inject_Z (Z.of_nat (List.length l)) * c.
Proof.
  unfold sumQ; induction l as [|x l IH]; intros Hc; cbn [map fold_right List.length].
  - reflexivity.
  - rewrite (Hc x (or_introl eq_refl)), IH by (intros y Hy; apply Hc; right; exact Hy).
    rewrite Nat2Z.inj_succ, <- Z.add_1_r, inject_Z_plus. ring.
Qed.

Lemma Qle_bool_pos x : 0 < x -> Qle_bool x 0 = false.
Proof.
  intros Hx; case_eq (Qle_bool x 0); intros E; [|reflexivity].
  apply Qle_bool_iff in E; exfalso; apply (Qlt_not_le _ _ Hx E).
Qed.

(** The tile branch on positive tile sizes: the grid, each tile's place and
    size, the total area and the width bound. *)
Lemma tile_features_spec transform c tw th :
  (0 < tw)%Z -> (0 < th)%Z ->
  (0 <= c_img_width c)%Z -> (0 <= c_img_height c)%Z -> 0 <= c_gsd c ->
  let tiles_x := (c_img_width c / tw)%Z in
  let tiles_y := (c_img_height c / th)%Z in
  let tfw := c_gsd c * inject_Z tw in
  let tfh := c_gsd c * inject_Z th in
  let start_x := fst (transform (c_lon c) (c_lat c)) - c_gsd c * inject_Z (c_img_width c) / 2 in
  let start_y := snd (transform (c_lon c) (c_lat c)) + c_gsd c * inject_Z (c_img_height c) / 2 in
  exists fs,
    tile_features transform c tw th = (Emit fs, [Info]) /\
    List.length fs = Z.to_nat (tiles_x * tiles_y) /\
    (forall f, In f fs -> exists row col,
       (0 <= row < tiles_y)%Z /\ (0 <= col < tiles_x)%Z /\
       f_tile_row f = Some row /\ f_tile_col f = Some col /\
       f_footprint_width_m f = tfw /\ f_footprint_height_m f = tfh /\
       f_footprint_area_m2 f = tfw * tfh /\
       Forall2 peq (f_geometry f)
         (rect (start_x + inject_Z col * tfw) (start_y - (inject_Z row + 1) * tfh)
               (start_x + (inject_Z col + 1) * tfw) (start_y - inject_Z row * tfh))) /\
    sumQ (map f_footprint_area_m2 fs) == inject_Z (tiles_x * tiles_y) * (tfw * tfh) /\
    inject_Z tiles_x * tfw <= c_gsd c * inject_Z (c_img_width c).
Proof.
  intros Htw Hth Hw Hh Hg tiles_x tiles_y tfw tfh start_x start_y.
  assert (Hx : (0 <= tiles_x)%Z) by (apply Z.div_pos; lia).
  assert (Hy : (0 <= tiles_y)%Z) by (apply Z.div_pos; lia).
  assert (Htf : tile_features transform c tw th =
     (Emit (flat_map (fun row => map (fun col =>
              tile_feature c tw th start_x start_y row col) (zrange tiles_x))
            (zrange tiles_y)), [Info])).
  { unfold tile_features.
    rewrite (proj2 (Z.eqb_neq tw 0)), (proj2 (Z.eqb_neq th 0)) by lia.
    unfold start_x, start_y; destruct (transform (c_lon c) (c_lat c)); reflexivity. }
  assert (Hin : forall f, In f (flat_map (fun row => map (fun col =>
              tile_feature c tw th start_x start_y row col) (zrange tiles_x))
            (zrange tiles_y)) ->
     exists row col,
       (0 <= row < tiles_y)%Z /\ (0 <= col < tiles_x)%Z /\
       f = tile_feature c tw th start_x start_y row col).
  { intros f Hf.
    apply in_flat_map in Hf as [row [Hrow Hf]].
    apply in_map_iff in Hf as [col [<- Hcol]].
    exists row, col; split; [apply in_zrange; exact Hrow|].
    split; [apply in_zrange; exact Hcol | reflexivity]. }
  assert (Hlen : List.length (flat_map (fun row => map (fun col =>
              tile_feature c tw th start_x start_y row col) (zrange tiles_x))
            (zrange tiles_y)) = Z.to_nat (tiles_x * tiles_y)).
  { rewrite length_flat_map_map, !length_zrange, Z2Nat.inj_mul by assumption.
    apply Nat.mul_comm. }
  eexists; split; [exact Htf|].
  split; [exact Hlen|].
  split.
  { intros f Hf; destruct (Hin f Hf) as [row [col [Hr [Hc ->]]]].
    exists row, col; do 2 (split; [assumption|]).
    do 5 (split; [reflexivity|]).
    unfold tile_feature, mk_feature; simpl.
    apply rect_peq; fold tfw tfh; field. }
  split.
  - rewrite (sumQ_const _ (tfw * tfh)).
    + rewrite Hlen, Z2Nat.id by lia. reflexivity.
    + intros f Hf; destruct (Hin f Hf) as [row [col [_ [_ ->]]]]; reflexivity.
  - unfold tfw.
    setoid_replace (inject_Z tiles_x * (c_gsd c * inject_Z tw))
      with (inject_Z (tw * tiles_x) * c_gsd c)
      by (rewrite inject_Z_mult; ring).
    setoid_replace (c_gsd c * inject_Z (c_img_width c))
      with (inject_Z (c_img_width c) * c_gsd c) by ring.
    apply Qmult_le_compat_r; [|exact Hg].
    rewrite <- Zle_Qle. apply Z.mul_div_le; exact Htw.
Qed.

Lemma gsd_nonneg sw h fr w :
  0 < sw -> 0 < h -> 0 < fr -> (0 < w)%Z -> 0 <= (sw * h) / (fr * inject_Z w).
Proof.
  intros Hs Hh Hf Hw.
  assert (Hwq : 0 < inject_Z w) by (change 0 with (inject_Z 0); rewrite <- Zlt_Qlt; exact Hw).
  apply Qlt_le_weak; unfold Qdiv.
  apply Qmult_lt_0_compat; [apply Qmult_lt_0_compat; assumption|].
  apply Qinv_lt_0_compat, Qmult_lt_0_compat; assumption.
Qed.

(** Claim C4 (as amended): in tiled mode with positive tile sizes, for an
    image whose GPS, dimensions (positive width) and DSM median are found,
    with positive flight height, sensor width and focal length,
    [process_image_from_url] emits exactly [(imW // tw) * (imH // th)]
    footprints; each is the tile [(row, col)] of the grid, of size
    [GSD*tw x GSD*th], offset from the top-left corner of the full footprint
    (projected centre minus half the full extent); the tile areas sum to
    [tiles_x * tiles_y * (GSD*tw) * (GSD*th)]; and
    [tiles_x * (GSD*tw) <= GSD*imW]. *)
Theorem process_tile_grid :
  forall transform mission zoom lat lon altitude w h dsm sw fr cc tw th,
  0 < altitude - dsm -> 0 < sw -> 0 < fr -> (0 < w)%Z -> (0 <= h)%Z ->
  (0 < tw)%Z -> (0 < th)%Z ->
  let gsd := (sw * (altitude - dsm)) / (fr * inject_Z w) in
  let tiles_x := (w / tw)%Z in
  let tiles_y := (h / th)%Z in
  let tfw := gsd * inject_Z tw in
  let tfh := gsd * inject_Z th in
  let start_x := fst (transform lon lat) - gsd * inject_Z w / 2 in
  let start_y := snd (transform lon lat) + gsd * inject_Z h / 2 in
  exists fs,
    process_image_from_url transform mission zoom (Some (lat, lon, altitude))
      (Some (w, h)) (Some dsm) sw fr cc (Some (tw, th)) = (Emit fs, [Info]) /\
    List.length fs = Z.to_nat (tiles_x * tiles_y) /\
    (forall f, In f fs -> exists row col,
       (0 <= row < tiles_y)%Z /\ (0 <= col < tiles_x)%Z /\
       f_tile_row f = Some row /\ f_tile_col f = Some col /\
       f_footprint_width_m f = tfw /\ f_footprint_height_m f = tfh /\
       f_footprint_area_m2 f = tfw * tfh /\
       Forall2 peq (f_geometry f)
         (rect (start_x + inject_Z col * tfw) (start_y - (inject_Z row + 1) * tfh)
               (start_x + (inject_Z col + 1) * tfw) (start_y - inject_Z row * tfh))) /\
    sumQ (map f_footprint_area_m2 fs) == inject_Z (tiles_x * tiles_y) * (tfw * tfh) /\
    inject_Z tiles_x * tfw <= gsd * inject_Z w.
Proof.
  intros transform mission zoom lat lon altitude w h dsm sw fr cc tw th
    Hh Hsw Hfr Hw Hh0 Htw Hth.
  unfold process_image_from_url.
  rewrite Qle_bool_pos by exact Hh.
  rewrite compute_gsd_pos by assumption.
  apply (tile_features_spec transform
    {| c_mission_id := mission; c_zoom_name := zoom; c_lat := lat; c_lon := lon;
       c_altitude := altitude; c_dsm_median := dsm;
       c_flight_height := altitude - dsm;
       c_gsd := (sw * (altitude - dsm)) / (fr * inject_Z w);
       c_img_width := w; c_img_height := h |} tw th);
    simpl; try lia.
  apply gsd_nonneg; assumption.
Qed.

(** The spec's image with [--tile-crop 1000 1000]. *)
Lemma process_tile_grid_witness :
  exists fs,
    process_image_from_url (fun lon lat => (lon, lat)) "m"%string "z"%string
      (Some (45, -73, 150)) (Some (5280%Z, 3956%Z)) (Some 100) (64 # 10) (299 # 10)
      None (Some (1000%Z, 1000%Z)) = (Emit fs, [Info]) /\
    List.length fs = Z.to_nat ((5280 / 1000) * (3956 / 1000))%Z.
Proof.
  destruct (process_tile_grid (fun lon lat => (lon, lat)) "m"%string "z"%string
              45 (-73) 150 5280 3956 100 (64 # 10) (299 # 10) None 1000 1000)
    as [fs [E [L _]]]; try (vm_compute; reflexivity); try lia.
  exists fs; split; assumption.
Defined.

(** Claim C4 fails as stated: argparse accepts negative tile sizes; with
    [--tile-crop -1000 -1000] the spec's 5280 x 3956 image has
    [floor(5280/-1000) * floor(3956/-1000) = 24] while no tile is emitted
    ([range] of a negative count is empty). *)
Lemma process_tile_grid_negative_tiles :
  process_image_from_url (fun lon lat => (lon, lat)) "m"%string "z"%string
    (Some (45, -73, 150)) (Some (5280%Z, 3956%Z)) (Some 100) (64 # 10) (299 # 10)
    None (Some ((-1000)%Z, (-1000)%Z)) = (Emit [], [Info]) /\
  Z.to_nat ((5280 / -1000) * (3956 / -1000))%Z = 24%nat.
Proof. split; vm_compute; reflexivity. Qed.

Lemma compute_gsd_nonzero sw h fr w :
  ~ fr == 0 -> w <> 0%Z ->
  compute_gsd sw h fr w = Some ((sw * h) / (fr * inject_Z w)).
Proof.
  intros Hfr Hw. unfold compute_gsd.
  case_eq (Qeq_bool (fr * inject_Z w) 0); intros E; [|reflexivity].
  apply Qeq_bool_iff, Qmult_integral in E as [E|E]; [contradiction|].
  exfalso; apply Hw.
  change 0 with (inject_Z 0) in E; rewrite inject_Z_injective in E; exact E.
Qed.

Lemma collect_features_empty pre post :
  collect_features (pre ++ Emit [] :: post) = collect_features (pre ++ post).
Proof.
  induction pre as [|r pre IH]; [reflexivity|].
  destruct r as [|[|x fs]|]; simpl; rewrite ?IH; reflexivity.
Qed.

(** Claim C10 (as amended): in tiled mode with positive tile sizes, an
    image that reaches the tiling step (GPS, dimensions with positive width
    and DSM found, positive flight height, nonzero focal length) and is
    narrower or shorter than a tile gets a zero tile count;
    [process_image_from_url] then returns an empty feature list while
    logging at info level only, and [main]'s collection loop drops it
    without a trace. *)
Theorem process_oversized_tile_silent :
  forall transform mission zoom lat lon altitude w h dsm sw fr cc tw th,
  0 < altitude - dsm -> ~ fr == 0 -> (0 < w)%Z -> (0 <= h)%Z ->
  (0 < tw)%Z -> (0 < th)%Z -> (w < tw \/ h < th)%Z ->
  (w / tw = 0 \/ h / th = 0)%Z /\
  (exists log,
     process_image_from_url transform mission zoom (Some (lat, lon, altitude))
       (Some (w, h)) (Some dsm) sw fr cc (Some (tw, th)) = (Emit [], log) /\
     quiet log) /\
  (forall pre post,
     collect_features (pre ++ Emit [] :: post) = collect_features (pre ++ post)).
Proof.
  intros transform mission zoom lat lon altitude w h dsm sw fr cc tw th
    Hh Hfr Hw Hh0 Htw Hth Hsmall.
  assert (Hz : (w / tw = 0 \/ h / th = 0)%Z).
  { destruct Hsmall; [left | right]; apply Z.div_small; lia. }
  split; [exact Hz|].
  split; [|exact collect_features_empty].
  exists [Info]; split; [|intros l [<-|[]]; reflexivity].
  unfold process_image_from_url.
  rewrite Qle_bool_pos by exact Hh.
  rewrite compute_gsd_nonzero by (assumption || lia).
  unfold tile_features; simpl c_img_width; simpl c_img_height.
  rewrite (proj2 (Z.eqb_neq tw 0)), (proj2 (Z.eqb_neq th 0)) by lia.
  simpl c_lon; simpl c_lat.
  destruct (transform lon lat); simpl.
  destruct Hz as [Ez|Ez]; rewrite Ez.
  - simpl zrange. induction (zrange (h / th)); simpl; [reflexivity|].
    injection IHl as E; rewrite E; reflexivity.
  - reflexivity.
Qed.

Lemma process_oversized_tile_silent_witness :
  exists log,
    process_image_from_url (fun lon lat => (lon, lat)) "m"%string "z"%string
      (Some (45, -73, 150)) (Some (5280%Z, 3956%Z)) (Some 100) (64 # 10) (299 # 10)
      None (Some (6000%Z, 1000%Z)) = (Emit [], log) /\ quiet log.
Proof.
  apply (process_oversized_tile_silent (fun lon lat => (lon, lat)) "m"%string "z"%string
           45 (-73) 150 5280 3956 100 (64 # 10) (299 # 10) None 6000 1000);
    try (vm_compute; reflexivity); try lia.
  vm_compute; discriminate.
Defined.

(** Claim C10 fails as stated for a zero tile height: argparse accepts
    [--tile-crop 6000 0]; the 5280-pixel-wide image is narrower than the
    tile, yet [img_height // 0] raises [ZeroDivisionError] instead of
    returning an empty list. *)
Lemma process_oversized_tile_zero_height :
  process_image_from_url (fun lon lat => (lon, lat)) "m"%string "z"%string
    (Some (45, -73, 150)) (Some (5280%Z, 3956%Z)) (Some 100) (64 # 10) (299 # 10)
    None (Some (6000%Z, 0%Z)) = (Crash, []).
Proof. vm_compute; reflexivity. Qed.

(** ** EXIF GPS extraction *)

(** Claim C5: for every rational DMS triple [(d, m, s)], both GPS
    conversion functions return [d + m/60 + s/3600] for the references [N]
    and [E], and its negation for [S] and [W]. *)
Theorem gps_dms_conversion (d m s : Q) (ref : string) :
  ((ref = "S" \/ ref = "W")%string ->
     dms_to_decimal (TRatios [d; m; s]) (TAscii ref) = Some (- (d + m / 60 + s / 3600)) /\
     convert_to_decimal_degrees (TRatios [d; m; s]) (TAscii ref)
       = Some (- (d + m / 60 + s / 3600))) /\
  ((ref = "N" \/ ref = "E")%string ->
     dms_to_decimal (TRatios [d; m; s]) (TAscii ref) = Some (d + m / 60 + s / 3600) /\
     convert_to_decimal_degrees (TRatios [d; m; s]) (TAscii ref)
       = Some (d + m / 60 + s / 3600)).
Proof.
  split; intros [-> | ->]; split; reflexivity.
Qed.

Lemma gps_dms_conversion_witness :
  dms_to_decimal (TRatios [45; 30; 36]) (TAscii "S"%string) = Some (- (45 + 30 / 60 + 36 / 3600)).
Proof.
  apply (proj1 (gps_dms_conversion 45 30 36 "S"%string)); left; reflexivity.
Defined.

Lemma convert_to_decimal_degrees_len value ref :
  py_len value <> 3%nat -> convert_to_decimal_degrees value ref = None.
Proof.
  intros Hl; unfold convert_to_decimal_degrees.
  apply Nat.eqb_neq in Hl; rewrite Hl; reflexivity.
Qed.

(** Claim C6 (a defect of the footprint extractor): its [dms_to_decimal]
    reads [values[0..2]] and never checks that a latitude or longitude
    value holds exactly three components, as [convert_to_decimal_degrees]
    of the points script does. A value with components beyond the third
    gives the same result as its first three alone, a position whenever
    those three give one, while the points extractor returns [None] on it.
    When the latitude or longitude tag is absent the footprint extractor
    returns [None] without logging anything, where the points extractor
    logs a warning. *)
Theorem extract_gps_component_count_unchecked (k : string) (sc : Z) (t : tags)
    (d m s : Q) (rest : list Q) :
  (k = "GPS GPSLatitude" \/ k = "GPS GPSLongitude")%string ->
  let resp v := Some {| status_code := sc; content := ExifOk ((k, TRatios v) :: t) |} in
  extract_gps_altitude_from_url (resp (d :: m :: s :: rest)) =
    extract_gps_altitude_from_url (resp [d; m; s]) /\
  (rest <> [] -> fst (get_coordinates_from_image_url (resp (d :: m :: s :: rest))) = None) /\
  (forall t', sc = 200%Z ->
     (tag_get "GPS GPSLatitude" t' = None \/ tag_get "GPS GPSLongitude" t' = None) ->
     extract_gps_altitude_from_url (Some {| status_code := sc; content := ExifOk t' |})
       = (None, []) /\
     get_coordinates_from_image_url (Some {| status_code := sc; content := ExifOk t' |})
       = (None, [Warning])).
Proof.
  intros Hk resp; split; [|split].
  - destruct Hk as [-> | ->]; reflexivity.
  - intros Hr; destruct rest as [|x rest]; [contradiction|].
    unfold resp, get_coordinates_from_image_url; cbn [status_code content].
    destruct (resp_truthy _ && (sc =? 200)%Z); [|destruct (resp_truthy _); reflexivity].
    destruct Hk as [-> | ->]; cbn -[convert_to_decimal_degrees];
      repeat match goal with
      | |- context [match tag_get ?a ?b with _ => _ end] => destruct (tag_get a b)
      | |- context [match convert_to_decimal_degrees (TRatios (_ :: _ :: _ :: _ :: _)) ?r with _ => _ end] =>
          rewrite (convert_to_decimal_degrees_len (TRatios (d :: m :: s :: x :: rest)) r)
            by (cbn; lia)
      | |- context [match convert_to_decimal_degrees ?a ?b with _ => _ end] =>
          destruct (convert_to_decimal_degrees a b)
      end; reflexivity.
  - intros t' -> Ht;
      unfold extract_gps_altitude_from_url, get_coordinates_from_image_url, resp_truthy;
      cbn [status_code content];
      change ((200 <? 400)%Z && (200 =? 200)%Z) with true; cbv iota.
    destruct Ht as [-> | ->]; [split; reflexivity|].
    destruct (tag_get "GPS GPSLatitude" t'), (tag_get "GPS GPSLatitudeRef" t');
      split; reflexivity.
Qed.

Lemma extract_gps_component_count_unchecked_witness :
  let t := (("GPS GPSAltitude"%string, TRatios [150]) :: gps_block) in
  let r v := Some {| status_code := 200%Z;
                     content := ExifOk (("GPS GPSLatitude"%string, TRatios v) :: t) |} in
  extract_gps_altitude_from_url (r [45; 30; 36; 1]) =
    (Some (45 + 30 / 60 + 36 / 3600, - (73 + 34 / 60 + 12 / 3600), 150), []) /\
  fst (get_coordinates_from_image_url (r [45; 30; 36; 1])) = None.
Proof.
  cbv beta zeta.
  destruct (extract_gps_component_count_unchecked "GPS GPSLatitude" 200
              (("GPS GPSAltitude"%string, TRatios [150]) :: gps_block) 45 30 36 [1]
              (or_introl eq_refl)) as [E [F _]].
  cbv beta zeta in E, F.
  split; [rewrite E; reflexivity | apply F; discriminate].
Defined.

(** ** Points pipeline *)

Lemma key_eqb_spec a b : key_eqb a b = true <-> a = b.
Proof.
  destruct a as [[a1 a2] a3], b as [[b1 b2] b3]; simpl.
  rewrite !andb_true_iff, !String.eqb_eq.
  split; [intros [[-> ->] ->]; reflexivity|].
  intros E; injection E as -> -> ->; auto.
Qed.

Lemma existsb_key_eqb k seen : existsb (key_eqb k) seen = true <-> In k seen.
Proof.
  rewrite existsb_exists; split.
  - intros [x [Hx E]]; apply key_eqb_spec in E; subst; exact Hx.
  - intros H; exists k; split; [exact H | apply key_eqb_spec; reflexivity].
Qed.

Lemma dd_sub seen l r : In r (drop_duplicates_aux seen l) -> In r l.
Proof.
  revert seen; induction l as [|x t IH]; intros seen; simpl; [tauto|].
  destruct (existsb (key_eqb (key x)) seen); simpl.
  - intros H; right; exact (IH _ H).
  - intros [H|H]; [left; exact H | right; exact (IH _ H)].
Qed.

Lemma dd_keys seen l r :
  In r l -> In (key r) seen \/
            exists r', In r' (drop_duplicates_aux seen l) /\ key r' = key r.
Proof.
  revert seen; induction l as [|x t IH]; intros seen Hr; simpl; [destruct Hr|].
  case_eq (existsb (key_eqb (key x)) seen); intros E.
  - destruct Hr as [<-|Hr]; [left; apply existsb_key_eqb; exact E|].
    exact (IH seen Hr).
  - destruct Hr as [<-|Hr]; [right; exists x; split; [left|]; reflexivity|].
    destruct (IH (key x :: seen) Hr) as [[Hk|Hk]|[r' [Hin Hk]]].
    + right; exists x; split; [left; reflexivity | exact Hk].
    + left; exact Hk.
    + right; exists r'; split; [right; exact Hin | exact Hk].
Qed.

Lemma dd_prefix seen l m r :
  In r (drop_duplicates_aux seen l) -> In r (drop_duplicates_aux seen (l ++ m)).
Proof.
  revert seen; induction l as [|x t IH]; intros seen; simpl; [tauto|].
  destruct (existsb (key_eqb (key x)) seen); simpl; [apply IH|].
  intros [H|H]; [left; exact H | right; exact (IH _ H)].
Qed.

Lemma dd_absorb seen l m :
  (forall x, In x m -> In (key x) seen \/ exists y, In y l /\ key y = key x) ->
  drop_duplicates_aux seen (l ++ m) = drop_duplicates_aux seen l.
Proof.
  revert seen; induction l as [|y t IH]; intros seen Hm; simpl.
  - induction m as [|x m IHm]; simpl; [reflexivity|].
    destruct (Hm x (or_introl eq_refl)) as [Hk|[y [[] _]]].
    apply existsb_key_eqb in Hk; rewrite Hk.
    apply IHm; intros z Hz; apply Hm; right; exact Hz.
  - case_eq (existsb (key_eqb (key y)) seen); intros E.
    + apply IH; intros x Hx.
      destruct (Hm x Hx) as [Hk|[z [[<-|Hz] Hk]]].
      * left; exact Hk.
      * left; rewrite <- Hk; apply existsb_key_eqb; exact E.
      * right; exists z; split; assumption.
    + f_equal; apply IH; intros x Hx.
      destruct (Hm x Hx) as [Hk|[z [[<-|Hz] Hk]]].
      * left; right; exact Hk.
      * left; left; exact Hk.
      * right; exists z; split; assumption.
Qed.

Lemma dd_nodup seen l :
  NoDup (map key (drop_duplicates_aux seen l)) /\
  forall r, In r (drop_duplicates_aux seen l) -> ~ In (key r) seen.
Proof.
  revert seen; induction l as [|x t IH]; intros seen; simpl.
  - split; [constructor | tauto].
  - case_eq (existsb (key_eqb (key x)) seen); intros E; [apply IH|].
    destruct (IH (key x :: seen)) as [Hnd Hout]; simpl; split.
    + constructor; [|exact Hnd].
      intros Hin; apply in_map_iff in Hin as [r [Hk Hr]].
      apply (Hout r Hr); left; symmetry; exact Hk.
    + intros r [<-|Hr].
      * intros Hk; apply existsb_key_eqb in Hk; congruence.
      * intros Hk; apply (Hout r Hr); right; exact Hk.
Qed.

Lemma in_somes {A : Type} (x : A) l : In x (somes l) <-> In (Some x) l.
Proof.
  induction l as [|[y|] t IH]; simpl; [tauto| |].
  - rewrite IH; split; [intros [->|H]; auto | intros [E|H]; [injection E; auto | auto]].
  - rewrite IH; split; [auto | intros [E|H]; [discriminate | exact H]].
Qed.

(** Every key of the first layer is a key of the second. *)
Section PipelineProofs.

Variable nm : naming.
Variable coordinates_of : string -> option (Q * Q).

Lemma key_eq_fields r r' :
  key r' = key r ->
  r_mission_id r' = r_mission_id r /\ r_point_id r' = r_point_id r /\
  r_wide_url r' = r_wide_url r.
Proof. unfold key; intros E; injection E; auto. Qed.

Lemma missions_mono L0 L1 f :
  layer_sub L0 L1 ->
  existsb (String.eqb f) (existing_missions L0) = true ->
  existsb (String.eqb f) (existing_missions L1) = true.
Proof.
  unfold existing_missions; intros Hs H.
  apply existsb_exists in H as [m [Hm E]]; apply String.eqb_eq in E; subst m.
  apply in_map_iff in Hm as [r [Er Hr]].
  destruct (Hs r Hr) as [r' [Hr' Hk]].
  apply existsb_exists; exists (r_mission_id r'); split.
  - apply in_map; exact Hr'.
  - apply String.eqb_eq; destruct (key_eq_fields _ _ Hk) as [-> _]; symmetry; exact Er.
Qed.

Lemma points_mono L0 L1 f p :
  layer_sub L0 L1 ->
  existsb (pair_eqb p) (existing_points L0 f) = true ->
  existsb (pair_eqb p) (existing_points L1 f) = true.
Proof.
  unfold existing_points; intros Hs H.
  apply existsb_exists in H as [q [Hq E]].
  apply in_map_iff in Hq as [r [<- Hr]].
  apply filter_In in Hr as [Hr Hf].
  destruct (Hs r Hr) as [r' [Hr' Hk]].
  destruct (key_eq_fields _ _ Hk) as [Em [Ep Ew]].
  apply existsb_exists; exists (r_wide_url r', r_point_id r'); split.
  - apply in_map_iff; exists r'; split; [reflexivity|].
    apply filter_In; split; [exact Hr'|]. rewrite Em; exact Hf.
  - rewrite Ep, Ew; exact E.
Qed.

Lemma zooms_mono L0 L1 f ws zs zs1 z :
  layer_sub L0 L1 ->
  zooms_to_process nm L1 f ws zs = Some zs1 -> In z zs1 ->
  exists zs0, zooms_to_process nm L0 f ws zs = Some zs0 /\ In z zs0.
Proof.
  intros Hs. unfold zooms_to_process; cbv zeta.
  case_eq (existsb (String.eqb f) (existing_missions L1)); intros Hm1.
  - intros E1 Hz.
    assert (Hz1 : In z (filter (zoom_needed nm L1 f ws) zs)).
    { destruct (filter (zoom_needed nm L1 f ws) zs); [discriminate | injection E1 as <-; exact Hz]. }
    apply filter_In in Hz1 as [Hzs Hc1].
    assert (Hc0 : zoom_needed nm L0 f ws z = true).
    { unfold zoom_needed in *.
      destruct (wide_lookup nm ws (zoom_identifier nm z)) as [wf|]; [|discriminate].
      apply negb_true_iff in Hc1; apply negb_true_iff.
      case_eq (existsb (pair_eqb (object_url f wf, zoom_identifier nm z))
                       (existing_points L0 f)); intros E0; [|reflexivity].
      rewrite (points_mono _ _ _ _ Hs E0) in Hc1; discriminate. }
    case_eq (existsb (String.eqb f) (existing_missions L0)); intros Hm0.
    + assert (Hin0 : In z (filter (zoom_needed nm L0 f ws) zs)) by (apply filter_In; auto).
      destruct (filter (zoom_needed nm L0 f ws) zs) as [|a l]; [destruct Hin0|].
      exists (a :: l); split; [reflexivity | exact Hin0].
    + exists zs; split; [reflexivity | exact Hzs].
  - intros E1 Hz.
    case_eq (existsb (String.eqb f) (existing_missions L0)); intros Hm0.
    + rewrite (missions_mono _ _ _ Hs Hm0) in Hm1; discriminate.
    + injection E1 as <-; exists zs; split; [reflexivity | exact Hz].
Qed.

Lemma rows_mono L0 L1 store r :
  layer_sub L0 L1 ->
  In r (run_folders nm coordinates_of L1 store) ->
  In r (run_folders nm coordinates_of L0 store).
Proof.
  unfold run_folders; intros Hs Hr.
  apply in_flat_map in Hr as [[f files] [Hfl Hr]].
  apply in_flat_map; exists (f, files); split; [exact Hfl|]; simpl in *.
  unfold folder_rows in *.
  destruct (zooms_to_process nm L1 f _ _) as [zs1|] eqn:E1; [|destruct Hr].
  apply in_somes, in_map_iff in Hr as [z [Ez Hz]].
  destruct (zooms_mono _ _ _ _ _ _ _ Hs E1 Hz) as [zs0 [E0 Hz0]].
  rewrite E0; apply in_somes, in_map_iff; exists z; split; assumption.
Qed.

Lemma main_sub L store : layer_sub L (main nm coordinates_of L store).
Proof.
  intros r Hr; unfold main.
  destruct (run_folders nm coordinates_of L store) as [|n ns].
  - exists r; split; [exact Hr | reflexivity].
  - destruct L as [[|e ex]|]; simpl in Hr; try contradiction.
    destruct (dd_keys [] ((e :: ex) ++ n :: ns) r) as [[]|Hk];
      [apply in_or_app; left; exact Hr | exact Hk].
Qed.

Lemma main_new_keys L store r :
  In r (run_folders nm coordinates_of L store) ->
  exists r', In r' (layer_rows (main nm coordinates_of L store)) /\ key r' = key r.
Proof.
  intros Hr; unfold main.
  destruct (run_folders nm coordinates_of L store) as [|n ns]; [destruct Hr|].
  destruct L as [[|e ex]|]; simpl.
  - exists r; split; [exact Hr | reflexivity].
  - destruct (dd_keys [] ((e :: ex) ++ n :: ns) r) as [[]|Hk];
      [apply in_or_app; right; exact Hr | exact Hk].
  - exists r; split; [exact Hr | reflexivity].
Qed.

End PipelineProofs.

Lemma existsb_pair_eqb_false p l :
  existsb (pair_eqb p) l = false -> ~ In p l.
Proof.
  intros E Hin.
  assert (existsb (pair_eqb p) l = true) as T; [|congruence].
  apply existsb_exists; exists p; split; [exact Hin|].
  unfold pair_eqb; rewrite !String.eqb_refl; reflexivity.
Qed.

(** C7 (amended): in a known mission only the zoom files whose
    [(wide_url, point_id)] pair, with the wide file taken from the lookup
    table, is absent from the layer are processed; a run that merges new rows
    into a non-empty existing layer writes rows with pairwise distinct keys
    [(mission_id, point_id, wide_url)]; and a second run over the same store
    writes only rows already written by the first run, while keeping every
    key of it. A layer written from scratch is not deduplicated. *)
Theorem points_rerun_adds_no_row :
  forall (nm : naming) (coordinates_of : string -> option (Q * Q))
         (store : list (string * list string)) (L0 : layer),
  (forall L folder wide_files zoom_files zs,
     existsb (String.eqb folder) (existing_missions L) = true ->
     zooms_to_process nm L folder wide_files zoom_files = Some zs ->
     forall z, In z zs ->
       exists wf, wide_lookup nm wide_files (zoom_identifier nm z) = Some wf /\
         ~ In (object_url folder wf, zoom_identifier nm z) (existing_points L folder)) /\
  (forall existing, existing <> [] ->
     run_folders nm coordinates_of (Some existing) store <> [] ->
     NoDup (map key (layer_rows (main nm coordinates_of (Some existing) store)))) /\
  (let L1 := main nm coordinates_of L0 store in
   let L2 := main nm coordinates_of L1 store in
   (forall r, In r (layer_rows L2) -> In r (layer_rows L1)) /\ layer_sub L1 L2).
Proof.
  intros nm coordinates_of store L0; split; [|split].
  - intros L folder ws zs zs' Hm Hz z Hin.
    unfold zooms_to_process in Hz; rewrite Hm in Hz.
    destruct (filter (zoom_needed nm L folder ws) zs) as [|y ys] eqn:Ef;
      [discriminate|].
    injection Hz as <-; rewrite <- Ef in Hin.
    apply filter_In in Hin as [_ Hn]; unfold zoom_needed in Hn.
    destruct (wide_lookup nm ws (zoom_identifier nm z)) as [wf|]; [|discriminate].
    exists wf; split; [reflexivity|].
    apply existsb_pair_eqb_false, negb_true_iff, Hn.
  - intros existing Hne Hrun; unfold main.
    destruct (run_folders nm coordinates_of (Some existing) store) as [|n ns];
      [congruence|].
    destruct existing as [|e ex]; [congruence|].
    exact (proj1 (dd_nodup [] _)).
  - cbv zeta.
    pose proof (main_sub nm coordinates_of L0 store) as Hsub.
    set (L1 := main nm coordinates_of L0 store) in *.
    split; [|apply main_sub].
    unfold main at 1.
    destruct (run_folders nm coordinates_of L1 store) as [|n ns] eqn:Er; [tauto|].
    destruct L1 as [[|x X]|] eqn:EL1.
    + exfalso.
      assert (In n (run_folders nm coordinates_of L0 store)) as H0.
      { apply (rows_mono nm coordinates_of L0 (Some []) store n Hsub).
        rewrite Er; left; reflexivity. }
      destruct (main_new_keys nm coordinates_of L0 store n H0) as [r' [Hr' _]].
      fold L1 in Hr'; rewrite EL1 in Hr'; destruct Hr'.
    + cbn [layer_rows]; unfold drop_duplicates; rewrite dd_absorb.
      * intros r Hr; exact (dd_sub _ _ _ Hr).
      * intros y Hy; right.
        assert (In y (run_folders nm coordinates_of L0 store)) as H0.
        { apply (rows_mono nm coordinates_of L0 (Some (x :: X)) store y Hsub).
          rewrite Er; exact Hy. }
        destruct (main_new_keys nm coordinates_of L0 store y H0) as [r' [Hr' Hk]].
        fold L1 in Hr'; rewrite EL1 in Hr'; exists r'; split; [exact Hr' | exact Hk].
    + exfalso.
      assert (In n (run_folders nm coordinates_of L0 store)) as H0.
      { apply (rows_mono nm coordinates_of L0 None store n Hsub).
        rewrite Er; left; reflexivity. }
      destruct (main_new_keys nm coordinates_of L0 store n H0) as [r' [Hr' _]].
      fold L1 in Hr'; rewrite EL1 in Hr'; destruct Hr'.
Qed.

Lemma points_rerun_adds_no_row_witness :
  [sample_row] <> [] /\
  run_folders arbutus_naming sample_coords (Some [sample_row]) sample_store <> [] /\
  NoDup (map key (layer_rows (main arbutus_naming sample_coords (Some [sample_row]) sample_store))).
Proof.
  split; [discriminate|].
  split; [vm_compute; discriminate|].
  apply (proj1 (proj2 (points_rerun_adds_no_row arbutus_naming sample_coords sample_store None))).
  - discriminate.
  - vm_compute; discriminate.
Defined.

(** C7 counterexample: a first run, with no layer on disk, over a folder
    whose two zoom pictures both end in [_0001zoom.JPG] writes two rows with
    the same key [(mission_id, point_id, wide_url)]: the written layer is not
    deduplicated. *)
Lemma points_first_run_duplicate_keys :
  match main arbutus_naming sample_coords None sample_store with
  | Some (r1 :: r2 :: _) => key r1 = key r2 /\ r_zoom_url r1 <> r_zoom_url r2
  | _ => False
  end.
Proof. vm_compute. split; [reflexivity | discriminate]. Qed.

(** C9: after a run over an existing layer, every key of the existing rows is
    still a key of the written layer, and every row that deduplicating the
    existing layer alone keeps is written unchanged. *)
Theorem points_rerun_keeps_existing :
  forall (nm : naming) (coordinates_of : string -> option (Q * Q))
         (store : list (string * list string)) (existing : list row),
  (forall r, In r existing ->
     exists r', In r' (layer_rows (main nm coordinates_of (Some existing) store)) /\
                key r' = key r) /\
  (forall r, In r (drop_duplicates existing) ->
     In r (layer_rows (main nm coordinates_of (Some existing) store))).
Proof.
  intros nm coordinates_of store existing; split.
  - exact (main_sub nm coordinates_of (Some existing) store).
  - intros r Hr; unfold main.
    destruct (run_folders nm coordinates_of (Some existing) store) as [|n ns].
    + exact (dd_sub _ _ _ Hr).
    + destruct existing as [|e ex]; [destruct Hr|].
      exact (dd_prefix _ _ _ _ Hr).
Qed.

Lemma points_rerun_keeps_existing_witness :
  exists r', In r' (layer_rows (main arbutus_naming sample_coords (Some [sample_row]) sample_store)) /\
             key r' = key sample_row.
Proof.
  apply (proj1 (points_rerun_keeps_existing arbutus_naming sample_coords sample_store [sample_row])).
  left; reflexivity.
Defined.

(** C8 (amended): the footprint script exits with code 1 right after logging
    an error, before any folder is processed, when the DSM directory does not
    exist, when it holds no dated .tif/.tiff file, or when a nonzero
    --center-crop is given with --tile-crop, checked in this order. Past these
    checks every folder is processed; the script then exits with code 1 after
    logging a warning when no footprint was produced, exits 0 when some were,
    and ends with the exception of a worker when one raised. *)
Theorem footprint_main_exit_codes :
  forall (transform : Q -> Q -> point) (mission_date : string -> option Z)
         (images : string -> string -> list level * list image_input) (a : args),
  let res := FootprintMain.main transform mission_date images a in
  let dsm_files := fst (find_dsm_files true (dsm_entries a)) in
  let flog := snd (find_dsm_files true (dsm_entries a)) in
  (dsm_dir_exists a = false -> res = (Exit 1, [Error])) /\
  (dsm_dir_exists a = true -> dsm_files = [] ->
     res = (Exit 1, Info :: flog ++ [Error])) /\
  (dsm_dir_exists a = true -> dsm_files <> [] -> crops_conflict a = true ->
     res = (Exit 1, Info :: flog ++ [Info; Error])) /\
  (dsm_dir_exists a = true -> dsm_files <> [] -> crops_conflict a = false ->
     match fst (FootprintMain.run_folders transform mission_date images a
                  dsm_files (folders a)) with
     | Some [] => fst res = Exit 1 /\ exists pre, snd res = pre ++ [Warning]
     | Some (_ :: _) => fst res = Exit 0
     | None => fst res = Raised
     end).
Proof.
  intros transform mission_date images a; cbv zeta.
  unfold FootprintMain.main.
  destruct (dsm_dir_exists a); cbn [negb];
    [|split; [reflexivity | split; [discriminate | split; discriminate]]].
  destruct (find_dsm_files true (dsm_entries a)) as [df fl]; cbn [fst snd].
  split; [discriminate|].
  destruct df as [|d ds].
  - split; [reflexivity|]. split; intros _ H; congruence.
  - split; [intros _ H; congruence|].
    destruct (crops_conflict a); (split; intros _ _ H; [reflexivity || discriminate|]);
      [discriminate|].
    destruct (FootprintMain.run_folders transform mission_date images a (d :: ds)
                (folders a)) as [[[|f fs]|] rlog]; cbn [fst snd].
    + split; [reflexivity|]. eexists. rewrite app_assoc. reflexivity.
    + reflexivity.
    + reflexivity.
Qed.

Lemma footprint_main_exit_codes_witness :
  dsm_dir_exists sample_args_crops = true /\
  fst (find_dsm_files true (dsm_entries sample_args_crops)) <> [] /\
  crops_conflict sample_args_crops = false /\
  fst (FootprintMain.main sample_transform sample_mission_date sample_images
         sample_args_crops) = Exit 0.
Proof.
  assert (fst (find_dsm_files true (dsm_entries sample_args_crops)) <> []) as Hd
    by (vm_compute; discriminate).
  split; [reflexivity|]. split; [exact Hd|]. split; [reflexivity|].
  pose proof (footprint_main_exit_codes sample_transform sample_mission_date
                sample_images sample_args_crops) as H.
  destruct H as [_ [_ [_ H]]].
  specialize (H eq_refl Hd eq_refl).
  vm_compute in H. exact H.
Defined.

(** C8 counterexample: with a dated DSM, no crop option and no matching
    folder, the script exits with code 1 without logging any error (the
    zero-footprint exit logs a warning); and with [--center-crop 0
    --tile-crop 1000 1000] it is not stopped and exits 0. *)
Lemma footprint_main_exit_counterexample :
  fst (FootprintMain.main sample_transform sample_mission_date sample_images
         sample_args_no_folder) = Exit 1 /\
  existsb (level_eqb Error)
    (snd (FootprintMain.main sample_transform sample_mission_date sample_images
            sample_args_no_folder)) = false /\
  center_crop sample_args_crops <> None /\ tile_crop sample_args_crops <> None /\
  fst (FootprintMain.main sample_transform sample_mission_date sample_images
         sample_args_crops) = Exit 0.
Proof.
  split; [vm_compute; reflexivity|].
  split; [vm_compute; reflexivity|].
  split; [discriminate|]. split; [discriminate|].
  vm_compute; reflexivity.
Qed.

(* ================================================================== *)
(** * Further properties of the scripts *)

(** ** [safe_request] *)

Lemma in_zrange_iff k n : In k (Geometry.zrange n) <-> (0 <= k < n)%Z.
Proof.
  unfold Geometry.zrange; rewrite in_map_iff; split.
  - intros [x [<- Hx]]; apply in_seq in Hx; lia.
  - intros Hk; exists (Z.to_nat k); split; [lia|]; apply in_seq; lia.
Qed.

Section SafeRequestProofs.

Context {A : Type}.
Variable get : Z -> option A.

Lemma loop_all_fail max_retries (k : nat) (p : nat) :
  (Z.of_nat k + Z.of_nat p = max_retries)%Z -> (0 < p)%nat ->
  (forall j, (Z.of_nat k <= j < max_retries)%Z -> get j = None) ->
  Requests.safe_request_loop get max_retries (map Z.of_nat (seq k p)) =
  (None, repeat Error (S p),
   map (fun j => 2 ^ Z.of_nat j)%Z (seq k (p - 1)),
   map Z.of_nat (seq k p)).
Proof.
  revert k; induction p as [|p IH]; intros k Hm Hp Hg; [lia|].
  simpl. rewrite Hg by lia.
  destruct p as [|p'].
  - replace (Z.of_nat k <? max_retries - 1)%Z with false by (symmetry; apply Z.ltb_ge; lia).
    reflexivity.
  - replace (Z.of_nat k <? max_retries - 1)%Z with true by (symmetry; apply Z.ltb_lt; lia).
    rewrite IH by (lia || (intros j Hj; apply Hg; lia)).
    simpl. rewrite Nat.sub_0_r. reflexivity.
Qed.

Lemma loop_first_success max_retries (k : nat) (p n : nat) r :
  (Z.of_nat k + Z.of_nat p = max_retries)%Z -> (n < p)%nat ->
  (forall j, (Z.of_nat k <= j < Z.of_nat k + Z.of_nat n)%Z -> get j = None) ->
  get (Z.of_nat k + Z.of_nat n)%Z = Some r ->
  Requests.safe_request_loop get max_retries (map Z.of_nat (seq k p)) =
  (Some r, repeat Error n,
   map (fun j => 2 ^ Z.of_nat j)%Z (seq k n),
   map Z.of_nat (seq k (S n))).
Proof.
  revert k n; induction p as [|p IH]; intros k n Hm Hn Hg Hr; [lia|].
  simpl. destruct n as [|n].
  - rewrite Z.add_0_r in Hr; rewrite Hr; reflexivity.
  - rewrite Hg by lia.
    replace (Z.of_nat k <? max_retries - 1)%Z with true by (symmetry; apply Z.ltb_lt; lia).
    rewrite (IH (S k) n) by (lia || (intros j Hj; apply Hg; lia) ||
                              (rewrite <- Hr; f_equal; lia)).
    reflexivity.
Qed.

End SafeRequestProofs.

(** [safe_request] with [max_retries <= 0] never calls [session.get]: the
    loop body does not run and the function returns [None] without logging. *)
Theorem safe_request_no_attempt {A : Type} (get : Z -> option A) (max_retries : Z) :
  (max_retries <= 0)%Z ->
  Requests.safe_request get max_retries = (None, [], [], []).
Proof.
  intros H; unfold Requests.safe_request, Geometry.zrange.
  replace (Z.to_nat max_retries) with O by lia; reflexivity.
Qed.

Lemma safe_request_no_attempt_witness :
  (0 <= 0)%Z /\ Requests.safe_request (fun _ => Some 200%Z) 0 = (None, [], [], []).
Proof. split; [lia | apply (safe_request_no_attempt (fun _ => Some 200%Z) 0); lia]. Defined.

(** [safe_request] returns the response of the first attempt that does not
    raise, if it is one of the first [max_retries]: it has logged one error
    and slept [2^j] seconds for each earlier attempt [j], and called
    [session.get] only for the attempts up to that one. *)
Theorem safe_request_first_success {A : Type} (get : Z -> option A)
    (max_retries n : Z) (r : A) :
  (0 <= n < max_retries)%Z ->
  (forall j, (0 <= j < n)%Z -> get j = None) ->
  get n = Some r ->
  Requests.safe_request get max_retries =
  (Some r, repeat Error (Z.to_nat n), map (fun j => 2 ^ j)%Z (Geometry.zrange n),
   Geometry.zrange (n + 1)).
Proof.
  intros Hn Hg Hr; unfold Requests.safe_request, Geometry.zrange.
  rewrite (loop_first_success get max_retries 0 (Z.to_nat max_retries) (Z.to_nat n) r);
    try lia.
  - rewrite map_map. f_equal. f_equal. replace (Z.to_nat (n + 1)) with (S (Z.to_nat n)) by lia.
    reflexivity.
  - intros j Hj; apply Hg; lia.
  - rewrite <- Hr; f_equal; lia.
Qed.

Lemma safe_request_first_success_witness :
  Requests.safe_request (fun k => if (k <? 2)%Z then None else Some 200%Z) 3 =
  (Some 200%Z, [Error; Error], [1; 2]%Z, [0; 1; 2]%Z).
Proof.
  apply (safe_request_first_success (fun k => if (k <? 2)%Z then None else Some 200%Z) 3 2 200%Z).
  - lia.
  - intros j Hj; replace (j <? 2)%Z with true by (symmetry; apply Z.ltb_lt; lia); reflexivity.
  - reflexivity.
Defined.

(** When each of the [max_retries >= 1] attempts raises, [safe_request]
    returns [None] after [max_retries] calls of [session.get], logging
    [max_retries + 1] errors and sleeping [2^j] seconds after each attempt
    [j] but the last. *)
Theorem safe_request_all_fail {A : Type} (get : Z -> option A) (max_retries : Z) :
  (1 <= max_retries)%Z ->
  (forall j, (0 <= j < max_retries)%Z -> get j = None) ->
  Requests.safe_request get max_retries =
  (None, repeat Error (S (Z.to_nat max_retries)),
   map (fun j => 2 ^ j)%Z (Geometry.zrange (max_retries - 1)),
   Geometry.zrange max_retries).
Proof.
  intros Hm Hg; unfold Requests.safe_request, Geometry.zrange.
  rewrite (loop_all_fail get max_retries 0 (Z.to_nat max_retries)); try lia.
  - replace (Z.to_nat (max_retries - 1)) with (Z.to_nat max_retries - 1)%nat by lia.
    rewrite map_map; reflexivity.
  - intros j Hj; apply Hg; lia.
Qed.

Lemma safe_request_all_fail_witness :
  Requests.safe_request (fun _ => @None Z) 3 =
  (None, [Error; Error; Error; Error], [1; 2]%Z, [0; 1; 2]%Z).
Proof. apply (safe_request_all_fail (fun _ => @None Z) 3); [lia | reflexivity]. Defined.

(** ** [setup_logging] of the footprint script *)

(** A record of level INFO goes to standard output and the info file only;
    one of level WARNING or above to standard error and the error file only;
    any other level, below INFO or strictly between INFO and WARNING, is
    written nowhere. No record reaches both the info file and the error
    file. *)
Theorem setup_logging_routing (levelno : Z) :
  Logging.emit_sinks levelno =
    (if (levelno =? Logging.INFO)%Z then [Logging.Stdout; Logging.InfoFile]
     else if (Logging.WARNING <=? levelno)%Z then [Logging.Stderr; Logging.ErrorFile]
     else []) /\
  ~ (In Logging.InfoFile (Logging.emit_sinks levelno) /\
     In Logging.ErrorFile (Logging.emit_sinks levelno)).
Proof.
  assert (Logging.emit_sinks levelno =
    (if (levelno =? Logging.INFO)%Z then [Logging.Stdout; Logging.InfoFile]
     else if (Logging.WARNING <=? levelno)%Z then [Logging.Stderr; Logging.ErrorFile]
     else [])) as E.
  { unfold Logging.emit_sinks, Logging.logger_level, Logging.project2D_handlers,
      Logging.INFO, Logging.WARNING; cbn [filter map fst snd Logging.h_level Logging.h_filter].
    destruct (Z.ltb_spec levelno 20) as [H|H].
    - replace (levelno =? 20)%Z with false by (symmetry; apply Z.eqb_neq; lia).
      replace (30 <=? levelno)%Z with false by (symmetry; apply Z.leb_gt; lia).
      reflexivity.
    - replace (20 <=? levelno)%Z with true by (symmetry; apply Z.leb_le; lia).
      destruct (Z.eqb_spec levelno 20) as [->|Hne]; [reflexivity|].
      destruct (Z.leb_spec 30 levelno); reflexivity. }
  split; [exact E|]. rewrite E.
  destruct (levelno =? Logging.INFO)%Z; [|destruct (Logging.WARNING <=? levelno)%Z];
    simpl; intuition discriminate.
Qed.

(** ** Dates *)

Lemma digit_char_digit n : (0 <= n <= 9)%Z -> Dates.digit (Dates.digit_char n) = Some n.
Proof.
  intros Hn.
  assert (In n (map Z.of_nat (seq 0 10))) as H.
  { apply in_map_iff; exists (Z.to_nat n); split; [lia | apply in_seq; lia]. }
  simpl in H; repeat destruct H as [<-|H]; try reflexivity; destruct H.
Qed.

Lemma mod10_range x : (0 <= x mod 10 <= 9)%Z.
Proof. pose proof (Z.mod_pos_bound x 10); lia. Qed.

Lemma div_digit_range a b : (0 < b)%Z -> (0 <= a < 10 * b)%Z -> (0 <= a / b <= 9)%Z.
Proof.
  intros Hb Ha; split; [apply Z.div_pos; lia|].
  assert (a / b < 10)%Z; [apply Z.div_lt_upper_bound; lia | lia].
Qed.

Lemma year_digits y : (0 <= y)%Z ->
  (1000 * (y / 1000) + 100 * ((y / 100) mod 10) + 10 * ((y / 10) mod 10) + y mod 10 = y)%Z.
Proof.
  intros Hy.
  pose proof (Z.div_mod y 10 ltac:(lia)) as E1.
  pose proof (Z.div_mod (y / 10) 10 ltac:(lia)) as E2.
  pose proof (Z.div_mod (y / 100) 10 ltac:(lia)) as E3.
  rewrite Z.div_div in E2 by lia. change (10 * 10)%Z with 100%Z in E2.
  rewrite Z.div_div in E3 by lia. change (100 * 10)%Z with 1000%Z in E3. lia.
Qed.

Lemma md_alts_text (Y m d : Z) :
  (1 <= m <= 12)%Z -> (1 <= d <= 31)%Z ->
  Dates.first_some (fun mr =>
    match Dates.d_alts (snd mr) with
    | (day, rest) :: _ => Some (Y, fst mr, day, rest)
    | [] => None
    end)
    (Dates.m_alts (String (Dates.digit_char (m / 10)) (String (Dates.digit_char (m mod 10))
       (String (Dates.digit_char (d / 10)) (String (Dates.digit_char (d mod 10)) EmptyString)))))
  = Some (Y, m, d, EmptyString).
Proof.
  intros Hm Hd.
  assert (In m (map Z.of_nat (seq 1 12))) as HM.
  { apply in_map_iff; exists (Z.to_nat m); split; [lia | apply in_seq; lia]. }
  assert (In d (map Z.of_nat (seq 1 31))) as HD.
  { apply in_map_iff; exists (Z.to_nat d); split; [lia | apply in_seq; lia]. }
  clear Hm Hd; simpl in HM, HD.
  repeat destruct HM as [<-|HM]; try destruct HM;
    repeat destruct HD as [<-|HD]; try destruct HD; vm_compute; reflexivity.
Qed.

Lemma strptime_ymd_text y m d :
  Dates.valid_date y m d = true -> Dates.strptime_Ymd (Dates.ymd_text y m d) = Some (y, m, d).
Proof.
  intros Hv. pose proof Hv as Hv'.
  unfold Dates.valid_date in Hv'; rewrite !andb_true_iff, !Z.leb_le in Hv'.
  assert (Dates.days_in_month y m <= 31)%Z as Hdim.
  { unfold Dates.days_in_month.
    destruct ((m =? 2)%Z && Dates.is_leap y); [lia|].
    assert (In m (map Z.of_nat (seq 1 12))) as HM.
    { apply in_map_iff; exists (Z.to_nat m); split; [lia | apply in_seq; lia]. }
    simpl in HM; repeat destruct HM as [<-|HM]; try destruct HM; simpl; lia. }
  unfold Dates.strptime_Ymd, Dates.match_Ymd, Dates.ymd_text.
  rewrite (digit_char_digit (y / 1000)) by (apply div_digit_range; lia).
  rewrite (digit_char_digit ((y / 100) mod 10)) by apply mod10_range.
  rewrite (digit_char_digit ((y / 10) mod 10)) by apply mod10_range.
  rewrite (digit_char_digit (y mod 10)) by apply mod10_range.
  cbv zeta. rewrite md_alts_text by lia.
  rewrite year_digits by lia. rewrite Hv. reflexivity.
Qed.

Lemma leading8_ymd_text y m d suffix :
  Dates.valid_date y m d = true ->
  Dates.leading8 (String.append (Dates.ymd_text y m d) suffix) = Some (Dates.ymd_text y m d).
Proof.
  intros Hv; unfold Dates.valid_date in Hv; rewrite !andb_true_iff, !Z.leb_le in Hv.
  assert (Dates.days_in_month y m <= 31)%Z as Hdim.
  { unfold Dates.days_in_month.
    destruct ((m =? 2)%Z && Dates.is_leap y); [lia|].
    assert (In m (map Z.of_nat (seq 1 12))) as HM.
    { apply in_map_iff; exists (Z.to_nat m); split; [lia | apply in_seq; lia]. }
    simpl in HM; repeat destruct HM as [<-|HM]; try destruct HM; simpl; lia. }
  unfold Dates.ymd_text; simpl String.append; unfold Dates.leading8, forallb.
  rewrite (digit_char_digit (y / 1000)) by (apply div_digit_range; lia).
  rewrite (digit_char_digit ((y / 100) mod 10)) by apply mod10_range.
  rewrite (digit_char_digit ((y / 10) mod 10)) by apply mod10_range.
  rewrite (digit_char_digit (y mod 10)) by apply mod10_range.
  rewrite (digit_char_digit (m / 10)) by (apply div_digit_range; lia).
  rewrite (digit_char_digit (m mod 10)) by apply mod10_range.
  rewrite (digit_char_digit (d / 10)) by (apply div_digit_range; lia).
  rewrite (digit_char_digit (d mod 10)) by apply mod10_range.
  reflexivity.
Qed.

(** [extract_date_from_mission_id] reads back every valid date written as
    [YYYYMMDD] at the start of a mission id, whatever follows it, without
    logging. *)
Theorem extract_date_round_trip (y m d : Z) (suffix : string) :
  Dates.valid_date y m d = true ->
  Dates.extract_date_from_mission_id (String.append (Dates.ymd_text y m d) suffix) =
  (Some (y, m, d), []).
Proof.
  intros Hv; unfold Dates.extract_date_from_mission_id.
  rewrite leading8_ymd_text by exact Hv.
  rewrite strptime_ymd_text by exact Hv. reflexivity.
Qed.

Lemma extract_date_round_trip_witness :
  Dates.valid_date 2024 9 13 = true /\
  Dates.extract_date_from_mission_id
    (String.append (Dates.ymd_text 2024 9 13) "_bcifairchild_wptse_m3e") =
  (Some (2024, 9, 13)%Z, []).
Proof.
  split; [reflexivity|].
  apply (extract_date_round_trip 2024 9 13 "_bcifairchild_wptse_m3e"). reflexivity.
Defined.

Lemma div_step k y : (0 < k)%Z ->
  (y / k - (y - 1) / k = if (y mod k =? 0)%Z then 1 else 0)%Z.
Proof.
  intros Hk.
  pose proof (Z.div_mod y k ltac:(lia)) as E.
  pose proof (Z.mod_pos_bound y k Hk) as B.
  destruct (Z.eqb_spec (y mod k) 0) as [H0|H0].
  - assert ((y - 1) / k = y / k - 1)%Z as ->; [|lia].
    symmetry; apply Z.div_unique with (k - 1)%Z; [lia|].
    rewrite H0 in E; lia.
  - assert ((y - 1) / k = y / k)%Z as ->; [|lia].
    symmetry; apply Z.div_unique with (y mod k - 1)%Z; [lia|lia].
Qed.


Lemma days_before_year_succ y :
  Dates.days_before_year (y + 1) = (Dates.days_before_year y + Dates.days_in_year y)%Z.
Proof.
  unfold Dates.days_before_year, Dates.days_in_year, Dates.is_leap.
  replace (y + 1 - 1)%Z with y by lia.
  pose proof (div_step 4 y ltac:(lia)) as S4.
  pose proof (div_step 100 y ltac:(lia)) as S100.
  pose proof (div_step 400 y ltac:(lia)) as S400.
  assert ((y mod 100 = 0)%Z -> (y mod 4 = 0)%Z) as I1.
  { intros H; apply Z.mod_divide in H; [|lia]. apply Z.mod_divide; [lia|].
    apply Z.divide_trans with 100%Z; [exists 25%Z; lia | exact H]. }
  assert ((y mod 400 = 0)%Z -> (y mod 100 = 0)%Z) as I2.
  { intros H; apply Z.mod_divide in H; [|lia]. apply Z.mod_divide; [lia|].
    apply Z.divide_trans with 400%Z; [exists 4%Z; lia | exact H]. }
  destruct (Z.eqb_spec (y mod 4) 0), (Z.eqb_spec (y mod 100) 0), (Z.eqb_spec (y mod 400) 0);
    simpl; lia.
Qed.

Lemma days_before_year_mono y y' : (y < y')%Z ->
  (Dates.days_before_year (y + 1) <= Dates.days_before_year y')%Z.
Proof.
  intros H.
  assert (forall n : nat, (Dates.days_before_year (y + 1) <=
                           Dates.days_before_year (y + 1 + Z.of_nat n))%Z) as G.
  { induction n as [|n IH]; [rewrite Z.add_0_r; lia|].
    replace (y + 1 + Z.of_nat (S n))%Z with (y + 1 + Z.of_nat n + 1)%Z by lia.
    rewrite (days_before_year_succ (y + 1 + Z.of_nat n)); unfold Dates.days_in_year.
    destruct (Dates.is_leap _); lia. }
  specialize (G (Z.to_nat (y' - y - 1))).
  replace (y + 1 + Z.of_nat (Z.to_nat (y' - y - 1)))%Z with y' in G by lia.
  exact G.
Qed.

Lemma month_cases m : (1 <= m <= 12)%Z ->
  m = 1%Z \/ m = 2%Z \/ m = 3%Z \/ m = 4%Z \/ m = 5%Z \/ m = 6%Z \/
  m = 7%Z \/ m = 8%Z \/ m = 9%Z \/ m = 10%Z \/ m = 11%Z \/ m = 12%Z.
Proof. lia. Qed.

(** Evaluates the month tables at a literal month. *)
Ltac norm_months :=
  repeat match goal with
  | H : context [Z.to_nat ?c] |- _ =>
    let v := eval vm_compute in (Z.to_nat c) in change (Z.to_nat c) with v in H
  | |- context [Z.to_nat ?c] =>
    let v := eval vm_compute in (Z.to_nat c) in change (Z.to_nat c) with v
  end;
  cbn -[Z.add Z.le Z.lt] in *.

(** Within a year, a valid date's day count lies past the months before it. *)
Lemma within_year y m d :
  (1 <= m <= 12)%Z -> (1 <= d <= Dates.days_in_month y m)%Z ->
  (1 <= Dates.days_before_month y m + d)%Z /\
  (Dates.days_before_month y m + d <= Dates.days_in_year y)%Z /\
  (forall m' d', (m < m' <= 12)%Z -> (1 <= d')%Z ->
     (Dates.days_before_month y m + d < Dates.days_before_month y m' + d')%Z).
Proof.
  intros Hm Hd; unfold Dates.days_in_month, Dates.days_before_month, Dates.days_in_year in *.
  destruct (Dates.is_leap y);
  destruct (month_cases m Hm) as [->|[->|[->|[->|[->|[->|[->|[->|[->|[->|[->| ->]]]]]]]]]]];
    norm_months; (split; [lia|split; [lia|]]); intros m' d' Hm' Hd';
    destruct (month_cases m' ltac:(lia)) as [->|[->|[->|[->|[->|[->|[->|[->|[->|[->|[->| ->]]]]]]]]]]];
    norm_months; lia.
Qed.

Lemma toordinal_lt a b :
  Dates.valid_date (fst (fst a)) (snd (fst a)) (snd a) = true ->
  Dates.valid_date (fst (fst b)) (snd (fst b)) (snd b) = true ->
  Dates.date_ltb a b = true -> (Dates.toordinal a < Dates.toordinal b)%Z.
Proof.
  destruct a as [[y m] d], b as [[y' m'] d']; simpl.
  unfold Dates.valid_date; rewrite !andb_true_iff, !Z.leb_le.
  intros [[[[[Hy1 Hy2] Hm1] Hm2] Hd1] Hd2] [[[[[Hy1' Hy2'] Hm1'] Hm2'] Hd1'] Hd2'].
  rewrite orb_true_iff, !andb_true_iff, orb_true_iff, andb_true_iff, !Z.ltb_lt, !Z.eqb_eq.
  destruct (within_year y m d ltac:(lia) ltac:(lia)) as [A1 [A2 A3]].
  destruct (within_year y' m' d' ltac:(lia) ltac:(lia)) as [B1 [B2 B3]].
  intros [Hlt | [-> [Hlt | [-> Hlt]]]].
  - pose proof (days_before_year_mono y y' Hlt) as M.
    rewrite days_before_year_succ in M. lia.
  - specialize (A3 m' d' ltac:(lia) ltac:(lia)). lia.
  - lia.
Qed.

(** Python compares two [datetime] values field by field; for valid dates
    this order is the order of their day numbers [toordinal], the numbers
    whose difference is [(mission_date - dsm_date).days]. *)
Theorem date_order_toordinal (a b : Dates.date) :
  Dates.valid_date (fst (fst a)) (snd (fst a)) (snd a) = true ->
  Dates.valid_date (fst (fst b)) (snd (fst b)) (snd b) = true ->
  (Dates.date_ltb a b = true <-> (Dates.toordinal a < Dates.toordinal b)%Z) /\
  (a = b <-> Dates.toordinal a = Dates.toordinal b).
Proof.
  intros Ha Hb.
  assert (Dates.date_ltb a b = false -> Dates.date_ltb b a = false -> a = b) as Tri.
  { destruct a as [[y m] d], b as [[y' m'] d']; simpl.
    rewrite !orb_false_iff, !andb_false_iff, !orb_false_iff, !andb_false_iff,
      !Z.ltb_ge, !Z.eqb_neq.
    intros H1 H2. f_equal; [f_equal|]; lia. }
  pose proof (toordinal_lt a b Ha Hb) as L1.
  pose proof (toordinal_lt b a Hb Ha) as L2.
  split; split.
  - exact L1.
  - intros H; destruct (Dates.date_ltb a b) eqn:E1; [reflexivity|].
    destruct (Dates.date_ltb b a) eqn:E2.
    + specialize (L2 eq_refl); lia.
    + rewrite (Tri eq_refl eq_refl) in H; lia.
  - intros ->; reflexivity.
  - intros H; destruct (Dates.date_ltb a b) eqn:E1; [specialize (L1 eq_refl); lia|].
    destruct (Dates.date_ltb b a) eqn:E2; [specialize (L2 eq_refl); lia|].
    exact (Tri eq_refl eq_refl).
Qed.

Lemma date_order_toordinal_witness :
  Dates.valid_date 2023 12 31 = true /\ Dates.valid_date 2024 1 1 = true /\
  (Dates.date_ltb (2023%Z, 12%Z, 31%Z) (2024%Z, 1%Z, 1%Z) = true <->
   (Dates.toordinal (2023%Z, 12%Z, 31%Z) < Dates.toordinal (2024%Z, 1%Z, 1%Z))%Z).
Proof.
  split; [reflexivity|]. split; [reflexivity|].
  exact (proj1 (date_order_toordinal (2023%Z, 12%Z, 31%Z) (2024%Z, 1%Z, 1%Z) eq_refl eq_refl)).
Defined.

(** ** [find_dsm_files] *)

Lemma search8_unfold s :
  Dates.search8 s =
  match Dates.leading8 s with
  | Some ds => Some ds
  | None => match s with EmptyString => None | String _ r => Dates.search8 r end
  end.
Proof. destruct s; reflexivity. Qed.

Lemma leading8_nondigit c r : Dates.digit c = None -> Dates.leading8 (String c r) = None.
Proof.
  intros H; unfold Dates.leading8.
  do 7 (destruct r as [|? r]; [reflexivity|]).
  unfold forallb; rewrite H; reflexivity.
Qed.

Lemma search8_skip p s :
  (forall c, In c (list_ascii_of_string p) -> Dates.digit c = None) ->
  Dates.search8 (String.append p s) = Dates.search8 s.
Proof.
  induction p as [|c p IH]; intros Hp; [reflexivity|].
  simpl String.append; rewrite search8_unfold.
  rewrite leading8_nondigit by (apply Hp; left; reflexivity).
  apply IH; intros c' Hc'; apply Hp; right; exact Hc'.
Qed.

(** A DSM file whose name holds a valid [YYYYMMDD] date, with no digit
    before it, is dated by that date, whatever follows it. *)
Theorem dsm_entry_date (dsm_dir p q : string) (y m d : Z) (is_file : bool) :
  (forall c, In c (list_ascii_of_string p) -> Dates.digit c = None) ->
  Dates.valid_date y m d = true ->
  FootprintMain.de_date
    (Dates.dsm_entry_of_listing dsm_dir
       (String.append p (String.append (Dates.ymd_text y m d) q)) is_file) =
  Some (Some (Dates.toordinal (y, m, d))).
Proof.
  intros Hp Hv; unfold Dates.dsm_entry_of_listing; cbn [FootprintMain.de_date].
  rewrite search8_skip by exact Hp.
  rewrite search8_unfold, leading8_ymd_text by exact Hv.
  rewrite strptime_ymd_text by exact Hv. reflexivity.
Qed.

Lemma dsm_entry_date_witness :
  (forall c, In c (list_ascii_of_string "bci_dsm_") -> Dates.digit c = None) /\
  Dates.valid_date 2023 12 31 = true /\
  FootprintMain.de_date
    (Dates.dsm_entry_of_listing "dsm" (String.append "bci_dsm_"
       (String.append (Dates.ymd_text 2023 12 31) ".tif")) true) =
  Some (Some (Dates.toordinal (2023%Z, 12%Z, 31%Z))).
Proof.
  assert (forall c, In c (list_ascii_of_string "bci_dsm_") -> Dates.digit c = None) as Hp.
  { intros c Hc; simpl in Hc; repeat destruct Hc as [<-|Hc]; try reflexivity; destruct Hc. }
  split; [exact Hp|]. split; [reflexivity|].
  exact (dsm_entry_date "dsm" "bci_dsm_" ".tif" 2023 12 31 true Hp eq_refl).
Defined.

Lemma find_dsm_files_flat (entries : list FootprintMain.dsm_entry) :
  FootprintMain.find_dsm_files true entries =
  (flat_map (fun e =>
     if FootprintMain.de_is_file e && FootprintMain.de_is_tiff e then
       match FootprintMain.de_date e with
       | Some (Some d) => [(FootprintMain.de_path e, d)]
       | _ => []
       end
     else []) entries,
   flat_map (fun e =>
     if FootprintMain.de_is_file e && FootprintMain.de_is_tiff e then
       (if Dates.dated e then [Info] else [Warning])
     else []) entries).
Proof.
  unfold FootprintMain.find_dsm_files; cbn [negb].
  induction entries as [|e t IH]; [reflexivity|].
  cbn [fold_right flat_map]. rewrite IH.
  unfold Dates.dated.
  destruct (FootprintMain.de_is_file e && FootprintMain.de_is_tiff e); [|reflexivity].
  destruct (FootprintMain.de_date e) as [[d|]|]; reflexivity.
Qed.

(** [find_dsm_files] on an existing directory returns, in directory order,
    the path and date of exactly the regular .tif/.tiff entries whose date
    parses; it logs one info record per such file, one warning per other
    .tif/.tiff regular file, nothing for the other entries and never an
    error. *)
Theorem find_dsm_files_spec (entries : list FootprintMain.dsm_entry) :
  let res := FootprintMain.find_dsm_files true entries in
  (forall path d, In (path, d) (fst res) <->
     exists e, In e entries /\
       FootprintMain.de_is_file e && FootprintMain.de_is_tiff e = true /\
       FootprintMain.de_date e = Some (Some d) /\ FootprintMain.de_path e = path) /\
  map fst (fst res) =
    map FootprintMain.de_path
      (filter (fun e => FootprintMain.de_is_file e && FootprintMain.de_is_tiff e
                        && Dates.dated e) entries) /\
  count_level Info (snd res) =
    List.length (filter (fun e => FootprintMain.de_is_file e && FootprintMain.de_is_tiff e
                                  && Dates.dated e) entries) /\
  count_level Warning (snd res) =
    List.length (filter (fun e => FootprintMain.de_is_file e && FootprintMain.de_is_tiff e
                                  && negb (Dates.dated e)) entries) /\
  ~ In Error (snd res).
Proof.
  cbv zeta; rewrite find_dsm_files_flat; cbn [fst snd].
  split; [|split; [|split; [|split]]].
  - intros path d; rewrite in_flat_map; split.
    + intros [e [He Hx]]; exists e.
      destruct (FootprintMain.de_is_file e && FootprintMain.de_is_tiff e) eqn:Ef;
        [|destruct Hx].
      destruct (FootprintMain.de_date e) as [[d'|]|] eqn:Ed; [|destruct Hx|destruct Hx].
      destruct Hx as [Hx|[]]; injection Hx as <- <-. repeat split; auto.
    + intros [e [He [Ef [Ed Ep]]]]; exists e; split; [exact He|].
      rewrite Ef, Ed, Ep; left; reflexivity.
  - induction entries as [|e t IH]; [reflexivity|].
    cbn [flat_map filter]; rewrite map_app, IH; unfold Dates.dated.
    destruct (FootprintMain.de_is_file e && FootprintMain.de_is_tiff e); [|reflexivity].
    destruct (FootprintMain.de_date e) as [[d|]|]; reflexivity.
  - unfold count_level; induction entries as [|e t IH]; [reflexivity|].
    cbn [flat_map filter]; rewrite filter_app, length_app, IH.
    destruct (FootprintMain.de_is_file e && FootprintMain.de_is_tiff e); [|reflexivity].
    destruct (Dates.dated e); reflexivity.
  - unfold count_level; induction entries as [|e t IH]; [reflexivity|].
    cbn [flat_map filter]; rewrite filter_app, length_app, IH.
    destruct (FootprintMain.de_is_file e && FootprintMain.de_is_tiff e); [|reflexivity].
    destruct (Dates.dated e); reflexivity.
  - rewrite in_flat_map; intros [e [_ Hx]].
    destruct (FootprintMain.de_is_file e && FootprintMain.de_is_tiff e); [|destruct Hx].
    destruct (Dates.dated e); destruct Hx as [Hx|[]]; discriminate.
Qed.

(** ** Tile geometry *)

Lemma tile_span_le g t k n :
  0 <= g -> (k * t <= n)%Z -> inject_Z k * (g * inject_Z t) <= g * inject_Z n.
Proof.
  intros Hg H.
  setoid_replace (inject_Z k * (g * inject_Z t)) with (inject_Z (k * t) * g)
    by (rewrite inject_Z_mult; ring).
  setoid_replace (g * inject_Z n) with (inject_Z n * g) by ring.
  apply Qmult_le_compat_r; [rewrite <- Zle_Qle; exact H | exact Hg].
Qed.

Lemma tile_step_le g t k n :
  0 <= g -> (0 <= t)%Z -> (k <= n)%Z ->
  inject_Z k * (g * inject_Z t) <= inject_Z n * (g * inject_Z t).
Proof.
  intros Hg Ht H. apply Qmult_le_compat_r; [rewrite <- Zle_Qle; exact H|].
  apply Qmult_le_0_compat; [exact Hg|]. change 0 with (inject_Z 0); rewrite <- Zle_Qle; exact Ht.
Qed.

Lemma tile_cell_bounds g t k n :
  0 <= g -> (0 < t)%Z -> (0 <= k < n / t)%Z ->
  0 <= inject_Z k * (g * inject_Z t) /\
  inject_Z k * (g * inject_Z t) + g * inject_Z t <= g * inject_Z n.
Proof.
  intros Hg Ht Hk; split.
  - apply (Qle_trans _ (inject_Z 0 * (g * inject_Z t))); [rewrite Qmult_0_l; apply Qle_refl|].
    apply tile_step_le; [exact Hg|lia|lia].
  - setoid_replace (inject_Z k * (g * inject_Z t) + g * inject_Z t)
      with (inject_Z (k + 1) * (g * inject_Z t)) by (rewrite inject_Z_plus; ring).
    apply tile_span_le; [exact Hg|].
    apply (Z.le_trans _ (n / t * t)); [apply Z.mul_le_mono_nonneg_r; lia|].
    rewrite Z.mul_comm; apply Z.mul_div_le; exact Ht.
Qed.

Lemma tile_cells_apart g t k1 k2 :
  0 <= g -> (0 <= t)%Z -> (k1 < k2)%Z ->
  inject_Z k1 * (g * inject_Z t) + g * inject_Z t <= inject_Z k2 * (g * inject_Z t).
Proof.
  intros Hg Ht H.
  setoid_replace (inject_Z k1 * (g * inject_Z t) + g * inject_Z t)
    with (inject_Z (k1 + 1) * (g * inject_Z t)) by (rewrite inject_Z_plus; ring).
  apply tile_step_le; [exact Hg|lia|lia].
Qed.

Lemma in_rect_inv (p : point) a b c d :
  In p (rect a b c d) ->
  (fst p = a \/ fst p = c) /\ (snd p = b \/ snd p = d).
Proof.
  unfold rect; simpl.
  intros [<-|[<-|[<-|[<-|[<-|[]]]]]]; simpl; tauto.
Qed.

(** In tiled mode, with positive tile sizes, sensor width, focal length and
    image width, every vertex of every emitted tile lies inside the full
    image footprint: the rectangle of size [gsd*width x gsd*height] centred
    on the projected image position. Two emitted tiles whose interiors share
    a point are the same tile (same row and column): the tiles never
    overlap. *)
Theorem tiles_inside_full_footprint_disjoint
    transform mission zoom lat lon alt w h dsm sw fr cc tw th fs log :
  process_image_from_url transform mission zoom (Some (lat, lon, alt))
    (Some (w, h)) (Some dsm) sw fr cc (Some (tw, th)) = (Emit fs, log) ->
  0 < sw -> 0 < fr -> (0 < w)%Z -> (0 < tw)%Z -> (0 < th)%Z ->
  (forall f p, In f fs -> In p (f_geometry f) ->
     fst (transform lon lat) - f_gsd_m f * inject_Z w / 2 <= fst p <=
       fst (transform lon lat) + f_gsd_m f * inject_Z w / 2 /\
     snd (transform lon lat) - f_gsd_m f * inject_Z h / 2 <= snd p <=
       snd (transform lon lat) + f_gsd_m f * inject_Z h / 2) /\
  (forall f1 f2 q, In f1 fs -> In f2 fs ->
     Footprints.in_interior q (f_geometry f1) ->
     Footprints.in_interior q (f_geometry f2) ->
     f_tile_row f1 = f_tile_row f2 /\ f_tile_col f1 = f_tile_col f2).
Proof.
  intros Hp Hsw Hfr Hw Htw Hth.
  destruct (process_emit_inv _ _ _ _ _ _ _ _ _ _ _ _ Hp)
    as [lat' [lon' [alt' [w' [h' [m [gsd [E1 [E2 [E3 [Hfh [Eg _]]]]]]]]]]]].
  injection E1 as E1a E1b E1c; injection E2 as E2a E2b; injection E3 as E3a.
  subst lat' lon' alt' w' h' m.
  rewrite compute_gsd_pos in Eg by assumption; injection Eg as Eg.
  assert (Hg : 0 <= gsd) by (rewrite <- Eg; apply gsd_nonneg; assumption).
  unfold process_image_from_url in Hp.
  rewrite Qle_bool_pos in Hp by exact Hfh.
  rewrite compute_gsd_pos, Eg in Hp by assumption.
  set (c := {| c_mission_id := mission; c_zoom_name := zoom; c_lat := lat;
               c_lon := lon; c_altitude := alt; c_dsm_median := dsm;
               c_flight_height := alt - dsm; c_gsd := gsd;
               c_img_width := w; c_img_height := h |}) in Hp.
  destruct (transform lon lat) as [cx cy] eqn:Et.
  split.
  - intros f p Hf Hin.
    destruct (tile_features_in _ _ _ _ _ _ _ Hp Hf) as [row [col [Hr [Hc ->]]]].
    simpl in Hr, Hc, Hin. rewrite Et in Hin. simpl in Hin |- *.
    destruct (tile_cell_bounds gsd tw col w Hg Htw Hc) as [Hx1 Hx2].
    destruct (tile_cell_bounds gsd th row h Hg Hth Hr) as [Hy1 Hy2].
    apply in_rect_inv in Hin as [Hpx Hpy].
    assert (HT : 0 <= gsd * inject_Z tw)
      by (apply Qmult_le_0_compat; [exact Hg|]; change 0 with (inject_Z 0);
          rewrite <- Zle_Qle; lia).
    assert (HU : 0 <= gsd * inject_Z th)
      by (apply Qmult_le_0_compat; [exact Hg|]; change 0 with (inject_Z 0);
          rewrite <- Zle_Qle; lia).
    set (A := inject_Z col * (gsd * inject_Z tw)) in *.
    set (B := inject_Z row * (gsd * inject_Z th)) in *.
    set (T := gsd * inject_Z tw) in *.
    set (U := gsd * inject_Z th) in *.
    set (W := gsd * inject_Z w) in *.
    set (H := gsd * inject_Z h) in *.
    clearbody A B T U W H.
    unfold Qdiv in *; change (/ 2) with (1 # 2) in *.
    destruct Hpx as [-> | ->], Hpy as [-> | ->]; repeat split; lra.
  - intros f1 f2 q Hf1 Hf2 Hq1 Hq2.
    destruct (tile_features_in _ _ _ _ _ _ _ Hp Hf1) as [r1 [c1 [_ [_ ->]]]].
    destruct (tile_features_in _ _ _ _ _ _ _ Hp Hf2) as [r2 [c2 [_ [_ ->]]]].
    simpl in Hq1, Hq2 |- *. rewrite Et in Hq1, Hq2. simpl in Hq1, Hq2.
    assert (Hc : c1 = c2).
    { destruct (Z.lt_trichotomy c1 c2) as [Hlt|[Heq|Hlt]]; [|exact Heq|];
        [pose proof (tile_cells_apart gsd tw c1 c2 Hg ltac:(lia) Hlt) as Hs
        |pose proof (tile_cells_apart gsd tw c2 c1 Hg ltac:(lia) Hlt) as Hs];
        set (A1 := inject_Z c1 * (gsd * inject_Z tw)) in *;
        set (A2 := inject_Z c2 * (gsd * inject_Z tw)) in *;
        set (T := gsd * inject_Z tw) in *; clearbody A1 A2 T;
        unfold Qdiv in *; change (/ 2) with (1 # 2) in *; exfalso; lra. }
    assert (Hr : r1 = r2).
    { destruct (Z.lt_trichotomy r1 r2) as [Hlt|[Heq|Hlt]]; [|exact Heq|];
        [pose proof (tile_cells_apart gsd th r1 r2 Hg ltac:(lia) Hlt) as Hs
        |pose proof (tile_cells_apart gsd th r2 r1 Hg ltac:(lia) Hlt) as Hs];
        set (B1 := inject_Z r1 * (gsd * inject_Z th)) in *;
        set (B2 := inject_Z r2 * (gsd * inject_Z th)) in *;
        set (U := gsd * inject_Z th) in *; clearbody B1 B2 U;
        unfold Qdiv in *; change (/ 2) with (1 # 2) in *; exfalso; lra. }
    subst; split; reflexivity.
Qed.

(** The spec's image (5280 x 3956 px, 150 m above a 100 m DSM) cut into
    2000 x 2000 px tiles: two tiles, inside the full footprint, apart. *)
Lemma tiles_inside_full_footprint_disjoint_witness :
  let r := process_image_from_url (fun lon lat => (lon, lat)) "m"%string "z"%string
             (Some (45, -73, 150)) (Some (5280%Z, 3956%Z)) (Some 100)
             (64 # 10) (299 # 10) None (Some (2000%Z, 2000%Z)) in
  let fs := match fst r with Emit fs => fs | _ => [] end in
  r = (Emit fs, [Info]) /\ List.length fs = 2%nat /\
  (forall f p, In f fs -> In p (f_geometry f) ->
     fst (-73, 45) - f_gsd_m f * inject_Z 5280 / 2 <= fst p <=
       fst (-73, 45) + f_gsd_m f * inject_Z 5280 / 2 /\
     snd (-73, 45) - f_gsd_m f * inject_Z 3956 / 2 <= snd p <=
       snd (-73, 45) + f_gsd_m f * inject_Z 3956 / 2) /\
  (forall f1 f2 q, In f1 fs -> In f2 fs ->
     Footprints.in_interior q (f_geometry f1) ->
     Footprints.in_interior q (f_geometry f2) ->
     f_tile_row f1 = f_tile_row f2 /\ f_tile_col f1 = f_tile_col f2).
Proof.
  intros r fs.
  assert (E : r = (Emit fs, [Info])) by (vm_compute; reflexivity).
  split; [exact E|]. split; [vm_compute; reflexivity|].
  exact (tiles_inside_full_footprint_disjoint (fun lon lat => (lon, lat))
           "m"%string "z"%string 45 (-73) 150 5280 3956 100 (64 # 10) (299 # 10)
           None 2000 2000 fs [Info] E
           ltac:(reflexivity) ltac:(reflexivity) ltac:(lia) ltac:(lia) ltac:(lia)).
Defined.

(** ** Provenance of the points rows *)

Lemma zooms_to_process_sub nm L f ws zs zs1 z :
  zooms_to_process nm L f ws zs = Some zs1 -> In z zs1 -> In z zs.
Proof.
  unfold zooms_to_process; cbv zeta.
  destruct (existsb (String.eqb f) (existing_missions L)).
  - destruct (filter (zoom_needed nm L f ws) zs) as [|a l] eqn:E; [discriminate|].
    intros H; injection H as <-; intros Hz.
    rewrite <- E in Hz; apply filter_In in Hz as [Hz _]; exact Hz.
  - intros H; injection H as <-; tauto.
Qed.

Lemma process_zoom_file_some nm coordinates_of z ws folder r :
  process_zoom_file nm coordinates_of z ws folder = Some r ->
  exists wf lat lon,
    find (wide_matches nm (zoom_identifier nm z)) ws = Some wf /\
    coordinates_of (object_url folder wf) = Some (lat, lon) /\
    r = {| r_mission_id := folder; r_point_id := zoom_identifier nm z;
           r_wide_url := object_url folder wf; r_zoom_url := object_url folder z;
           r_geometry := (lon, lat) |}.
Proof.
  unfold process_zoom_file.
  destruct (find _ ws) as [wf|] eqn:Ef; [|discriminate].
  destruct (coordinates_of (object_url folder wf)) as [[lat lon]|] eqn:Ec; [|discriminate].
  intros H; injection H as <-; exists wf, lat, lon; repeat split; assumption.
Qed.

(** Every row the points script produces comes from one listed folder: its
    mission id is the folder, its point id is the identifier of a zoom
    picture of that folder, its wide picture is the first wide picture of the
    folder matching that identifier, both URLs point into the folder, and its
    geometry is [(longitude, latitude)] as read from the wide picture. *)
Theorem points_row_provenance nm coordinates_of L store r :
  In r (run_folders nm coordinates_of L store) ->
  exists folder files z wf lat lon,
    In (folder, files) store /\
    In z files /\ is_zoom nm z = true /\
    In wf files /\ is_wide nm wf = true /\
    find (wide_matches nm (zoom_identifier nm z)) (filter (is_wide nm) files) = Some wf /\
    coordinates_of (object_url folder wf) = Some (lat, lon) /\
    r = {| r_mission_id := folder; r_point_id := zoom_identifier nm z;
           r_wide_url := object_url folder wf; r_zoom_url := object_url folder z;
           r_geometry := (lon, lat) |}.
Proof.
  unfold run_folders; intros Hr.
  apply in_flat_map in Hr as [[folder files] [Hfl Hr]]; simpl in Hr.
  unfold folder_rows in Hr.
  destruct (zooms_to_process nm L folder _ _) as [zs|] eqn:Ez; [|destruct Hr].
  apply in_somes, in_map_iff in Hr as [z [Epz Hz]].
  apply (zooms_to_process_sub _ _ _ _ _ _ _ Ez) in Hz.
  apply filter_In in Hz as [Hz Hzz].
  destruct (process_zoom_file_some _ _ _ _ _ _ Epz) as [wf [lat [lon [Ef [Ec ->]]]]].
  pose proof (find_some _ _ Ef) as [Hw _].
  apply filter_In in Hw as [Hw Hww].
  exists folder, files, z, wf, lat, lon; repeat split; assumption.
Qed.

(** A run over the sample store, with no layer on disk yet. *)
Lemma points_row_provenance_witness :
  match run_folders arbutus_naming sample_coords None sample_store with
  | r :: _ =>
    exists folder files z wf lat lon,
      In (folder, files) sample_store /\
      In z files /\ is_zoom arbutus_naming z = true /\
      In wf files /\ is_wide arbutus_naming wf = true /\
      find (wide_matches arbutus_naming (zoom_identifier arbutus_naming z))
           (filter (is_wide arbutus_naming) files) = Some wf /\
      sample_coords (object_url folder wf) = Some (lat, lon) /\
      r = {| r_mission_id := folder; r_point_id := zoom_identifier arbutus_naming z;
             r_wide_url := object_url folder wf; r_zoom_url := object_url folder z;
             r_geometry := (lon, lat) |}
  | [] => False
  end.
Proof.
  destruct (run_folders arbutus_naming sample_coords None sample_store)
    as [|r rest] eqn:E; [vm_compute in E; discriminate|].
  apply (points_row_provenance arbutus_naming sample_coords None sample_store r).
  rewrite E; left; reflexivity.
Defined.

(** For a folder whose mission is not yet in the points layer, every zoom
    picture whose matching wide picture yields coordinates gives its row:
    nothing of a new mission is skipped. *)
Theorem points_new_mission_complete nm coordinates_of L store folder files z r :
  In (folder, files) store ->
  ~ In folder (existing_missions L) ->
  In z files -> is_zoom nm z = true ->
  process_zoom_file nm coordinates_of z (filter (is_wide nm) files) folder = Some r ->
  In r (run_folders nm coordinates_of L store).
Proof.
  intros Hfl Hnew Hz Hzz Hp.
  unfold run_folders; apply in_flat_map; exists (folder, files); split; [exact Hfl|].
  simpl; unfold folder_rows, zooms_to_process; cbv zeta.
  case_eq (existsb (String.eqb folder) (existing_missions L)); intros Hm.
  - apply existsb_exists in Hm as [m [Hm E]]; apply String.eqb_eq in E; subst m.
    contradiction.
  - apply in_somes, in_map_iff; exists z; split; [exact Hp|].
    apply filter_In; split; assumption.
Qed.

Lemma points_new_mission_complete_witness :
  In sample_row (run_folders arbutus_naming sample_coords None sample_store).
Proof.
  apply (points_new_mission_complete arbutus_naming sample_coords None sample_store
           sample_folder (snd (hd (EmptyString, []) sample_store)) "C_0002zoom.JPG"%string).
  - left; reflexivity.
  - simpl; tauto.
  - vm_compute; tauto.
  - vm_compute; reflexivity.
  - vm_compute; reflexivity.
Defined.

(** When the layer on disk already has rows and the run produces new ones,
    the written layer has no two rows with the same
    [(mission_id, point_id, wide_url)] key, and each of its rows is an
    existing row or a new one. *)
Theorem points_merge_unique_keys nm coordinates_of existing store :
  existing <> [] -> run_folders nm coordinates_of (Some existing) store <> [] ->
  NoDup (map key (layer_rows (main nm coordinates_of (Some existing) store))) /\
  (forall r, In r (layer_rows (main nm coordinates_of (Some existing) store)) ->
     In r existing \/ In r (run_folders nm coordinates_of (Some existing) store)).
Proof.
  intros He Hr; unfold main.
  destruct (run_folders nm coordinates_of (Some existing) store) as [|n ns];
    [congruence|].
  destruct existing as [|e ex]; [congruence|].
  split; [exact (proj1 (dd_nodup [] ((e :: ex) ++ n :: ns)))|].
  intros r Hin; apply in_app_or; exact (dd_sub [] ((e :: ex) ++ n :: ns) r Hin).
Qed.

Lemma points_merge_unique_keys_witness :
  NoDup (map key (layer_rows (main arbutus_naming sample_coords (Some [sample_row]) sample_store))).
Proof.
  apply (points_merge_unique_keys arbutus_naming sample_coords [sample_row] sample_store).
  - discriminate.
  - vm_compute; discriminate.
Defined.

(** ** Provenance of the footprints *)

Lemma collect_features_in rs f :
  In f (collect_features rs) -> exists es, In (Emit es) rs /\ In f es.
Proof.
  induction rs as [|[|[|e es]|] t IH]; simpl; try tauto.
  - intros H; destruct (IH H) as [es [Hin Hf]]; exists es; auto.
  - intros H; destruct (IH H) as [es' [Hin Hf]]; exists es'; auto.
  - intros H; change (In f ((e :: es) ++ collect_features t)) in H.
    apply in_app_or in H as [H|H].
    + exists (e :: es); split; [left; reflexivity | exact H].
    + destruct (IH H) as [es' [Hin Hf]]; exists es'; auto.
  - intros H; destruct (IH H) as [es [Hin Hf]]; exists es; auto.
Qed.

Lemma process_emit_names transform mission zoom gps dims dsm sw fr cc tc fs log f :
  process_image_from_url transform mission zoom gps dims dsm sw fr cc tc = (Emit fs, log) ->
  In f fs -> f_mission_id f = mission /\ f_image_name f = zoom.
Proof.
  unfold process_image_from_url.
  destruct gps as [[[lat lon] alt]|]; [|discriminate].
  destruct dims as [[w h]|]; [|discriminate].
  destruct dsm as [m|]; [|discriminate].
  destruct (Qle_bool (alt - m) 0); [discriminate|].
  destruct (compute_gsd sw (alt - m) fr w) as [gsd|]; [|discriminate].
  intros Hp Hf.
  destruct tc as [[tw th]|].
  - destruct (tile_features_in _ _ _ _ _ _ f Hp Hf) as [row [col [_ [_ ->]]]].
    split; reflexivity.
  - destruct cc as [cc|]; [destruct (cc =? 0)%Z|];
      injection Hp as <- _; destruct Hf as [<-|[]]; split; reflexivity.
Qed.

(** Every footprint the folder loop of the footprint script collects comes
    from one of the listed folders that has a mission date and a DSM dated
    on or before it: it is one of the features [process_image_from_url]
    emitted for a zoom picture of that folder, with that DSM, and it carries
    the folder as its mission id and the picture's name. *)
Theorem footprint_feature_provenance transform mission_date images a dsm_files
    folders feats log f :
  FootprintMain.run_folders transform mission_date images a dsm_files folders =
    (Some feats, log) ->
  In f feats ->
  exists folder d dsm_path slog i es plog,
    In folder folders /\ mission_date folder = Some d /\
    select_closest_dsm d dsm_files = (Some dsm_path, slog) /\
    In i (snd (images folder dsm_path)) /\
    process_image_from_url transform folder (ii_zoom_name i) (ii_gps i)
      (ii_dims i) (ii_dsm i) (sensor_width a) (focal_length a)
      (center_crop a) (tile_crop a) = (Emit es, plog) /\
    In f es /\ f_mission_id f = folder /\ f_image_name f = ii_zoom_name i.
Proof.
  revert feats log.
  induction folders as [|folder t IH]; intros feats log; simpl.
  { intros H; injection H as <- _; intros []. }
  destruct (mission_date folder) as [d|] eqn:Ed.
  2:{ destruct (FootprintMain.run_folders transform mission_date images a dsm_files t)
        as [r rlog] eqn:Er.
      intros H Hf; injection H as -> _.
      destruct (IH _ _ eq_refl Hf) as [fo [d' [p [sl [i [es [pl [Hin Hrest]]]]]]]].
      exists fo, d', p, sl, i, es, pl; split; [right; exact Hin | exact Hrest]. }
  destruct (select_closest_dsm d dsm_files) as [[dsm_path|] slog] eqn:Es.
  2:{ destruct (FootprintMain.run_folders transform mission_date images a dsm_files t)
        as [r rlog] eqn:Er.
      intros H Hf; injection H as -> _.
      destruct (IH _ _ eq_refl Hf) as [fo [d' [p [sl [i [es [pl [Hin Hrest]]]]]]]].
      exists fo, d', p, sl, i, es, pl; split; [right; exact Hin | exact Hrest]. }
  destruct (images folder dsm_path) as [llog inputs] eqn:Ei.
  destruct (existsb is_crash _); [discriminate|].
  destruct (FootprintMain.run_folders transform mission_date images a dsm_files t)
    as [r rlog] eqn:Er.
  destruct r as [rest|]; [|discriminate].
  intros H Hf; injection H as <- _.
  apply in_app_or in Hf as [Hf|Hf].
  - apply collect_features_in in Hf as [es [Hes Hf]].
    apply in_map_iff in Hes as [o [Eo Ho]].
    apply in_map_iff in Ho as [i [Ei' Hi]].
    destruct o as [o plog]; simpl in Eo; subst o.
    destruct (process_emit_names _ _ _ _ _ _ _ _ _ _ _ _ f Ei' Hf) as [Hm Hn].
    exists folder, d, dsm_path, slog, i, es, plog.
    split; [left; reflexivity|]. split; [exact Ed|]. split; [exact Es|].
    split; [rewrite Ei; exact Hi|]. split; [exact Ei'|].
    split; [exact Hf|]. split; assumption.
  - destruct (IH _ _ eq_refl Hf) as [fo [d' [p [sl [i [es [pl [Hin Hrest]]]]]]]].
    exists fo, d', p, sl, i, es, pl; split; [right; exact Hin | exact Hrest].
Qed.

(** The sample folder, its dated DSM and its one zoom picture, full-image
    mode. *)
Lemma footprint_feature_provenance_witness :
  let dsm_files := fst (find_dsm_files true sample_dsm_entries) in
  let res := FootprintMain.run_folders sample_transform sample_mission_date
               sample_images sample_args_no_folder dsm_files [sample_folder] in
  match res with
  | (Some (f :: _), _) =>
    exists folder d dsm_path slog i es plog,
      In folder [sample_folder] /\ sample_mission_date folder = Some d /\
      select_closest_dsm d dsm_files = (Some dsm_path, slog) /\
      In i (snd (sample_images folder dsm_path)) /\
      process_image_from_url sample_transform folder (ii_zoom_name i) (ii_gps i)
        (ii_dims i) (ii_dsm i) (sensor_width sample_args_no_folder)
        (focal_length sample_args_no_folder)
        (center_crop sample_args_no_folder) (tile_crop sample_args_no_folder)
        = (Emit es, plog) /\
      In f es /\ f_mission_id f = folder /\ f_image_name f = ii_zoom_name i
  | _ => False
  end.
Proof.
  intros dsm_files res.
  destruct res as [[[|f rest]|] log] eqn:E; [vm_compute in E; discriminate| |
    vm_compute in E; discriminate].
  apply (footprint_feature_provenance sample_transform sample_mission_date
           sample_images sample_args_no_folder dsm_files [sample_folder]
           (f :: rest) log f E).
  left; reflexivity.
Defined.

(** ** The two GPS readers *)

(** On a reference tag of at most one character, the two scripts' sign
    tests agree. *)
Lemma ref_tests_agree v :
  match v with TAscii s => (String.length s <= 1)%nat | _ => True end ->
  ref_in_SW v = ref_first_in_SW v.
Proof.
  destruct v as [l|s|l]; try reflexivity.
  destruct s as [|c [|c' r]]; simpl; try reflexivity; [|lia].
  intros _; destruct (c =? "S")%char, (c =? "W")%char; reflexivity.
Qed.

Lemma dms_convert_agree v ref x y :
  match ref with TAscii s => (String.length s <= 1)%nat | _ => True end ->
  dms_to_decimal v ref = Some x -> convert_to_decimal_degrees v ref = Some y ->
  x = y.
Proof.
  intros Hr.
  unfold dms_to_decimal, convert_to_decimal_degrees.
  destruct v as [l|s|l]; try discriminate.
  destruct l as [|d [|m [|s [|e l]]]]; simpl; try discriminate.
  rewrite (ref_tests_agree ref Hr).
  intros H1 H2; injection H1 as <-; injection H2 as <-; reflexivity.
Qed.

(** When the footprint script and the points script both read GPS
    coordinates from the same response, and the latitude and longitude
    reference tags hold at most one character, the two scripts find the same
    latitude and the same longitude. *)
Theorem gps_readers_agree resp t lat lon alt log1 lat' lon' log2 :
  content resp = ExifOk t ->
  (forall k s, (k = "GPS GPSLatitudeRef" \/ k = "GPS GPSLongitudeRef")%string ->
     tag_get k t = Some (TAscii s) -> (String.length s <= 1)%nat) ->
  extract_gps_altitude_from_url (Some resp) = (Some (lat, lon, alt), log1) ->
  get_coordinates_from_image_url (Some resp) = (Some (lat', lon'), log2) ->
  lat' = lat /\ lon' = lon.
Proof.
  intros Ec Hs.
  assert (Href : forall k v, (k = "GPS GPSLatitudeRef" \/ k = "GPS GPSLongitudeRef")%string ->
            tag_get k t = Some v ->
            match v with TAscii s => (String.length s <= 1)%nat | _ => True end).
  { intros k v Hk Hv; destruct v as [|s|]; trivial; exact (Hs k s Hk Hv). }
  unfold extract_gps_altitude_from_url, get_coordinates_from_image_url.
  destruct (resp_truthy resp && (status_code resp =? 200)%Z);
    [|destruct (resp_truthy resp); discriminate].
  rewrite Ec.
  destruct (tag_get "GPS GPSLatitude" t) as [latv|]; [|discriminate].
  destruct (tag_get "GPS GPSLongitude" t) as [lonv|]; [|discriminate].
  destruct (tag_get "GPS GPSLatitudeRef" t) as [latref|] eqn:Elr; [|discriminate].
  destruct (dms_to_decimal latv latref) as [x|] eqn:Ex; [|discriminate].
  destruct (tag_get "GPS GPSLongitudeRef" t) as [lonref|] eqn:Eor; [|discriminate].
  destruct (dms_to_decimal lonv lonref) as [y|] eqn:Ey; [|discriminate].
  intros H1.
  assert (x = lat /\ y = lon) as [<- <-].
  { destruct (tag_get "GPS GPSAltitude" t) as [[[|a al]| |]|]; try discriminate.
    destruct (tag_get "GPS GPSAltitudeRef" t) as [refv|];
      [destruct (alt_ref_is_one refv) as [[]|]|]; try discriminate;
      injection H1; auto. }
  destruct (convert_to_decimal_degrees latv latref) as [x'|] eqn:Ex'; [|discriminate].
  destruct (convert_to_decimal_degrees lonv lonref) as [y'|] eqn:Ey'; [|discriminate].
  intros H2; injection H2 as <- <-.
  split.
  - symmetry; apply (dms_convert_agree latv latref); auto.
    apply (Href "GPS GPSLatitudeRef"%string); auto.
  - symmetry; apply (dms_convert_agree lonv lonref); auto.
    apply (Href "GPS GPSLongitudeRef"%string); auto.
Qed.

(** The sample GPS block with an altitude of 150 m, read by both scripts
    from a 200 response. *)
Lemma gps_readers_agree_witness :
  let resp := {| status_code := 200; content := ExifOk (gps_block ++ [("GPS GPSAltitude"%string, TRatios [150])]) |} in
  match extract_gps_altitude_from_url (Some resp),
        get_coordinates_from_image_url (Some resp) with
  | (Some (lat, lon, _), _), (Some (lat', lon'), _) => lat' = lat /\ lon' = lon
  | _, _ => False
  end.
Proof.
  intros resp.
  destruct (extract_gps_altitude_from_url (Some resp)) as [[[[lat lon] alt]|] log1] eqn:E1;
    [|vm_compute in E1; discriminate].
  destruct (get_coordinates_from_image_url (Some resp)) as [[[lat' lon']|] log2] eqn:E2;
    [|vm_compute in E2; discriminate].
  apply (gps_readers_agree resp (gps_block ++ [("GPS GPSAltitude"%string, TRatios [150])]) lat lon alt log1 lat' lon' log2 eq_refl); auto.
  intros k s [-> | ->] Hk; vm_compute in Hk; injection Hk as <-; simpl; lia.
Defined.

(** ** Picture names in the points script *)

Section StringLemmas.
Local Open Scope string_scope.

Lemma str_app_nil_r s : s ++ "" = s.
Proof. induction s as [|c s IH]; simpl; [reflexivity | rewrite IH; reflexivity]. Qed.

Lemma str_app_assoc a b c : (a ++ b) ++ c = a ++ (b ++ c).
Proof. induction a as [|x a IH]; simpl; [reflexivity | rewrite IH; reflexivity]. Qed.

Lemma str_length_app a b : String.length (a ++ b) = (String.length a + String.length b)%nat.
Proof. induction a as [|x a IH]; simpl; [reflexivity | rewrite IH; reflexivity]. Qed.

Lemma lower_app a b : PyStr.lower (a ++ b) = PyStr.lower a ++ PyStr.lower b.
Proof. induction a as [|x a IH]; simpl; [reflexivity | rewrite IH; reflexivity]. Qed.

Lemma lower_digits s : Naming.digits_only s = true -> PyStr.lower s = s.
Proof.
  induction s as [|c s IH]; [reflexivity|].
  intros H; cbn [Naming.digits_only] in H; apply andb_true_iff in H as [Hc Hs].
  apply andb_true_iff in Hc as [H1 H2]; apply Nat.leb_le in H1, H2.
  cbn [PyStr.lower]; rewrite (IH Hs).
  replace ((65 <=? nat_of_ascii c)%nat && (nat_of_ascii c <=? 90)%nat) with false;
    [reflexivity|].
  symmetry; apply andb_false_iff; left; apply Nat.leb_gt; lia.
Qed.

Lemma contains1_cons x c s :
  PyStr.contains (String x "") (String c s) =
  Ascii.eqb c x || PyStr.contains (String x "") s.
Proof.
  unfold PyStr.contains; simpl.
  destruct (Ascii.ascii_dec x c) as [<-|Hne].
  - rewrite Ascii.eqb_refl; destruct s; reflexivity.
  - replace (Ascii.eqb c x) with false
      by (symmetry; apply Ascii.eqb_neq; intros E; apply Hne; symmetry; exact E).
    simpl; destruct (index 0 (String x "") s); reflexivity.
Qed.

Lemma contains1_app x a b :
  PyStr.contains (String x "") (a ++ b) =
  PyStr.contains (String x "") a || PyStr.contains (String x "") b.
Proof.
  induction a as [|c a IH]; [reflexivity|].
  simpl; rewrite !contains1_cons, IH, orb_assoc; reflexivity.
Qed.

Lemma digits_no_char x s :
  (nat_of_ascii x < 48 \/ 57 < nat_of_ascii x)%nat ->
  Naming.digits_only s = true -> PyStr.contains (String x "") s = false.
Proof.
  intros Hx; induction s as [|c s IH]; [reflexivity|].
  intros H; cbn [Naming.digits_only] in H; apply andb_true_iff in H as [Hc Hs].
  apply andb_true_iff in Hc as [H1 H2]; apply Nat.leb_le in H1, H2.
  rewrite contains1_cons, IH by exact Hs.
  destruct (Ascii.eqb_spec c x) as [->|]; [lia | reflexivity].
Qed.

Lemma split_last_none sep s :
  PyStr.contains (String sep "") s = false -> PyStr.split_last sep s = s.
Proof.
  destruct s as [|c s]; [reflexivity|].
  rewrite contains1_cons; intros H; apply orb_false_iff in H as [Hc Hs].
  simpl; rewrite Hs, Hc; reflexivity.
Qed.

Lemma split_last_app sep a b :
  PyStr.contains (String sep "") b = false ->
  PyStr.split_last sep (a ++ b) = PyStr.split_last sep a ++ b.
Proof.
  intros Hb; induction a as [|c a IH]; simpl.
  - exact (split_last_none sep b Hb).
  - rewrite contains1_app, Hb, orb_false_r.
    destruct (PyStr.contains (String sep "") a); [exact IH|].
    destruct (Ascii.eqb c sep); reflexivity.
Qed.

Lemma split_last_after sep a b :
  PyStr.contains (String sep "") b = false ->
  PyStr.split_last sep (a ++ String sep b) = b.
Proof.
  intros Hb; induction a as [|c a IH]; simpl.
  - rewrite Hb, Ascii.eqb_refl; reflexivity.
  - rewrite contains1_app, contains1_cons, Ascii.eqb_refl, orb_true_r; exact IH.
Qed.

Lemma substring_app_skip a b n :
  substring (String.length a) n (a ++ b) = substring 0 n b.
Proof. induction a as [|c a IH]; [reflexivity | exact IH]. Qed.

Lemma substring_all s : substring 0 (String.length s) s = s.
Proof. induction s as [|c s IH]; simpl; [reflexivity | rewrite IH; reflexivity]. Qed.

Lemma endswith_app a s : PyStr.endswith s (a ++ s) = true.
Proof.
  unfold PyStr.endswith; rewrite str_length_app.
  replace (String.length a + String.length s - String.length s)%nat
    with (String.length a) by lia.
  rewrite substring_app_skip, substring_all, String.eqb_refl, andb_true_r.
  apply Nat.leb_le; lia.
Qed.

Lemma contains_app_r pat a b :
  PyStr.contains pat b = true -> PyStr.contains pat (a ++ b) = true.
Proof.
  unfold PyStr.contains; intros Hb; induction a as [|c a IH]; [exact Hb|].
  simpl; match goal with |- context [if ?t then Some 0%nat else _] => destruct t end;
    [reflexivity|].
  destruct (index 0 pat (a ++ b)); [reflexivity | discriminate].
Qed.

Lemma remove_aux_digits x pat id t n :
  (nat_of_ascii x < 48 \/ 57 < nat_of_ascii x)%nat ->
  Naming.digits_only id = true -> (String.length id <= n)%nat ->
  PyStr.remove_all_aux n (String x pat) (id ++ t) =
  id ++ PyStr.remove_all_aux (n - String.length id) (String x pat) t.
Proof.
  intros Hx; revert n; induction id as [|c id IH]; intros n Hd Hn.
  - simpl; rewrite Nat.sub_0_r; reflexivity.
  - cbn [Naming.digits_only] in Hd; apply andb_true_iff in Hd as [Hc Hd].
    apply andb_true_iff in Hc as [H1 H2]; apply Nat.leb_le in H1, H2.
    destruct n as [|n]; [simpl in Hn; lia|].
    simpl String.length; rewrite Nat.sub_succ.
    simpl PyStr.remove_all_aux.
    destruct (Ascii.ascii_dec x c) as [->|_]; [lia|].
    rewrite IH by (simpl in Hn; lia || exact Hd); reflexivity.
Qed.

Lemma remove_all_digits x pat id t :
  (nat_of_ascii x < 48 \/ 57 < nat_of_ascii x)%nat ->
  Naming.digits_only id = true ->
  PyStr.remove_all (String x pat) (id ++ t) =
  id ++ PyStr.remove_all_aux (String.length t) (String x pat) t.
Proof.
  intros Hx Hd; unfold PyStr.remove_all; simpl String.eqb; cbv iota.
  rewrite remove_aux_digits by (auto; rewrite str_length_app; lia).
  rewrite str_length_app; f_equal; f_equal; lia.
Qed.

End StringLemmas.

(** For a zoom picture [<p>_<id>zoom.JPG] and a wide picture
    [<q>_<id>.JPG] whose identifier [<id>] is made of digits, the points
    script reads [<id>] from the zoom name, files the wide picture under the
    key [<id>] in its skip lookup, finds that the wide picture matches the
    identifier's pattern [_<id>.jpg], and counts the zoom name as a zoom
    picture: the skip test and the pairing see the same pair. *)
Theorem picture_pair_names (p q id : string) :
  Naming.digits_only id = true ->
  zoom_identifier arbutus_naming (p ++ "_" ++ id ++ "zoom.JPG") = id /\
  wide_key arbutus_naming (q ++ "_" ++ id ++ ".JPG") = id /\
  wide_matches arbutus_naming id (q ++ "_" ++ id ++ ".JPG") = true /\
  is_zoom arbutus_naming (p ++ "_" ++ id ++ "zoom.JPG") = true.
Proof.
  intros Hd.
  assert (Hslash : forall t, PyStr.contains "/" t = false ->
            PyStr.contains "/" (id ++ t) = false).
  { intros t Ht; rewrite contains1_app, Ht, orb_false_r.
    apply digits_no_char; [vm_compute; lia | exact Hd]. }
  assert (Hund : forall t, PyStr.contains "_" t = false ->
            PyStr.contains "_" (id ++ t) = false).
  { intros t Ht; rewrite contains1_app, Ht, orb_false_r.
    apply digits_no_char; [vm_compute; lia | exact Hd]. }
  assert (Hbz : PyStr.basename (p ++ String "_" (id ++ "zoom.JPG")) =
                (PyStr.basename p ++ String "_" (id ++ "zoom.JPG"))%string).
  { unfold PyStr.basename; apply split_last_app.
    rewrite contains1_cons, Hslash; reflexivity. }
  assert (Hbw : PyStr.basename (q ++ String "_" (id ++ ".JPG")) =
                (PyStr.basename q ++ String "_" (id ++ ".JPG"))%string).
  { unfold PyStr.basename; apply split_last_app.
    rewrite contains1_cons, Hslash; reflexivity. }
  assert (Hsz : PyStr.split_last "_" (PyStr.basename p ++ String "_" (id ++ "zoom.JPG")) =
                (id ++ "zoom.JPG")%string)
    by (apply split_last_after, Hund; reflexivity).
  assert (Hsw : PyStr.split_last "_" (PyStr.basename q ++ String "_" (id ++ ".JPG")) =
                (id ++ ".JPG")%string)
    by (apply split_last_after, Hund; reflexivity).
  split; [|split; [|split]].
  - simpl zoom_identifier; rewrite Hbz, Hsz, lower_app, lower_digits by exact Hd.
    change (PyStr.lower "zoom.JPG") with "zoom.jpg"%string.
    rewrite remove_all_digits by (vm_compute; lia || exact Hd).
    apply str_app_nil_r.
  - simpl wide_key; rewrite Hbw, Hsw, lower_app, lower_digits by exact Hd.
    change (PyStr.lower ".JPG") with ".jpg"%string.
    rewrite remove_all_digits by (vm_compute; lia || exact Hd).
    change (PyStr.remove_all_aux (String.length ".jpg") "jpg" ".jpg") with "."%string.
    rewrite remove_all_digits by (vm_compute; lia || exact Hd).
    change (PyStr.remove_all_aux (String.length ".") "." ".") with ""%string.
    rewrite str_app_nil_r, <- (str_app_nil_r id) at 1.
    rewrite remove_all_digits by (vm_compute; lia || exact Hd).
    apply str_app_nil_r.
  - simpl wide_matches; rewrite Hbw, lower_app.
    change (PyStr.lower (String "_" (id ++ ".JPG")))
      with (String "_" (PyStr.lower (id ++ ".JPG"))).
    rewrite lower_app, lower_digits by exact Hd.
    change (PyStr.lower ".JPG") with ".jpg"%string.
    apply endswith_app.
  - simpl is_zoom; apply andb_true_iff; split.
    + change (p ++ String "_" (id ++ "zoom.JPG"))%string
        with (p ++ ("_" ++ (id ++ ("zoom" ++ ".JPG"))))%string.
      rewrite <- !str_app_assoc; apply endswith_app.
    + rewrite lower_app.
      change (PyStr.lower (String "_" (id ++ "zoom.JPG")))
        with ("_" ++ PyStr.lower (id ++ "zoom.JPG"))%string.
      rewrite (lower_app id), (lower_digits id Hd).
      change (PyStr.lower "zoom.JPG") with ("zoom" ++ ".jpg")%string.
      do 3 apply contains_app_r; reflexivity.
Qed.

(** The sample folder's second pair. *)
Lemma picture_pair_names_witness :
  zoom_identifier arbutus_naming ("C" ++ "_" ++ "0002" ++ "zoom.JPG") = "0002"%string /\
  wide_key arbutus_naming ("IMG" ++ "_" ++ "0002" ++ ".JPG") = "0002"%string /\
  wide_matches arbutus_naming "0002" ("IMG" ++ "_" ++ "0002" ++ ".JPG") = true /\
  is_zoom arbutus_naming ("C" ++ "_" ++ "0002" ++ "zoom.JPG") = true.
Proof. apply (picture_pair_names "C" "IMG" "0002"); reflexivity. Defined.

(** ** Full-image and centre-crop footprints *)


